(** * Deck builders of github-workflow-demo

    A shallow embedding of [create_powerpoint_final.py] and
    [create_powerpoint_improved.py].  Both scripts drive the python-pptx
    object model: they open the library's bundled template, append twelve
    slides, save the document under a fixed name and print confirmation
    lines.

    The python-pptx objects the scripts touch are modelled as plain records
    kept in one document value; Python references to slides, shapes, text
    frames, paragraphs and table cells are paths into that value, so that
    assignments through [slide], [tf], [p] or [cell] update the shared
    document as they do in Python.  Library calls that can raise return
    [Raise], and the first exception aborts the rest of the run. *)

From Stdlib Require Import ZArith QArith String Ascii Lia.
From stdpp Require Import base option list strings gmap.

Open Scope string_scope.
Open Scope list_scope.
Open Scope Z_scope.

(** ** Python runtime: exceptions and string literals *)

Inductive Exn : Type :=
| IndexError
| KeyError
| AttributeError
| TypeError
| ValueError
| UnicodeEncodeError
| OSError (errno : Z).

Inductive Result (A : Type) : Type :=
| Ok (a : A)
| Raise (e : Exn).
Arguments Ok {A} a.
Arguments Raise {A} e.

Definition LF : ascii := "010"%char.

(** A Python string literal: the two characters backslash, n denote a line
    feed.  The scripts use no other escape sequence. *)
Fixpoint py (literal : string) : string :=
  match literal with
  | String "\"%char (String "n"%char rest) => String LF (py rest)
  | String c rest => String c (py rest)
  | EmptyString => EmptyString
  end.

(** [str.split("\n")] *)
Fixpoint split_lines_aux (cur : string) (s : string) : list string :=
  match s with
  | EmptyString => [String.rev cur]
  | String c rest =>
      if Ascii.eqb c LF then String.rev cur :: split_lines_aux EmptyString rest
      else split_lines_aux (String c cur) rest
  end.

Definition split_lines (s : string) : list string := split_lines_aux EmptyString s.

(** ["\n".join(lines)] *)
Fixpoint join_lines (lines : list string) : string :=
  match lines with
  | [] => EmptyString
  | [l] => l
  | l :: rest => l +:+ String LF (join_lines rest)
  end.

(** [enumerate(xs, start)] *)
Fixpoint enumerate {A : Type} (start : nat) (xs : list A) : list (nat * A) :=
  match xs with
  | [] => []
  | x :: rest => (start, x) :: enumerate (S start) rest
  end.

(** ** The python-pptx object model *)

Module Pptx.

(** Lengths are integers in English Metric Units. *)
Definition Length : Type := Z.

(** [Inches(x)] is [int(x * 914400)]; [int] truncates towards zero.  The
    script's decimal literals are read as exact rationals. *)
Definition Inches (inches : Q) : Length :=
  let emu := (inches * 914400)%Q in Z.quot (Qnum emu) (Z.pos (Qden emu)).

(** [Pt(n)] is [int(n * 12700)]. *)
Definition Pt (points : Z) : Length := points * 12700.

Record Color : Type := RGBColor { red : Z; green : Z; blue : Z }.

Record Font : Type := mkFont {
  font_size : option Length;
  font_bold : option bool;
  font_color : option Color
}.

Record Paragraph : Type := mkParagraph {
  par_text : string;
  par_level : nat;
  par_font : Font;
  par_space_before : option Length;
  par_space_after : option Length
}.

Definition empty_font : Font := mkFont None None None.
Definition empty_paragraph : Paragraph := mkParagraph EmptyString 0 empty_font None None.

(** A text frame is its sequence of paragraphs; a fresh one holds a single
    empty paragraph. *)
Definition TextFrame : Type := list Paragraph.
Definition new_text_frame : TextFrame := [empty_paragraph].

Inductive Fill : Type :=
| FillInherited
| FillSolid (fore_color : option Color).

Record Cell : Type := mkCell { cell_frame : TextFrame; cell_fill : Fill }.

Record Table : Type := mkTable {
  column_widths : list Length;
  table_rows : list (list Cell)
}.

Record Box : Type := mkBox { box_left : Length; box_top : Length; box_width : Length; box_height : Length }.

Inductive PlaceholderType : Type :=
| PH_TITLE | PH_CENTER_TITLE | PH_SUBTITLE | PH_BODY | PH_OBJECT | PH_PICTURE.

Inductive Shape : Type :=
| Placeholder (idx : nat) (ph_type : PlaceholderType) (tf : TextFrame)
| TextBox (geom : Box) (tf : TextFrame)
| GraphicFrame (geom : Box) (tbl : Table).

Record SlideLayout : Type := mkLayout {
  layout_name : string;
  layout_placeholders : list (nat * PlaceholderType)
}.

Record Slide : Type := mkSlide {
  slide_layout : SlideLayout;
  shapes : list Shape
}.

Record Document : Type := mkDocument {
  slide_width : Length;
  slide_height : Length;
  slide_layouts : list SlideLayout;
  slides : list Slide
}.

(** The template bundled with python-pptx, which [Presentation()] opens: a
    4:3 page, eleven layouts, no slide.  Each layout lists the placeholders
    a new slide inherits from it (date, footer and slide number are not
    inherited). *)
Definition default_template : Document :=
  mkDocument 9144000 6858000
    [ mkLayout "Title Slide" [(0, PH_CENTER_TITLE); (1, PH_SUBTITLE)];
      mkLayout "Title and Content" [(0, PH_TITLE); (1, PH_OBJECT)];
      mkLayout "Section Header" [(0, PH_TITLE); (1, PH_BODY)];
      mkLayout "Two Content" [(0, PH_TITLE); (1, PH_OBJECT); (2, PH_OBJECT)];
      mkLayout "Comparison"
        [(0, PH_TITLE); (1, PH_BODY); (2, PH_OBJECT); (3, PH_BODY); (4, PH_OBJECT)];
      mkLayout "Title Only" [(0, PH_TITLE)];
      mkLayout "Blank" [];
      mkLayout "Content with Caption" [(0, PH_TITLE); (1, PH_OBJECT); (2, PH_BODY)];
      mkLayout "Picture with Caption" [(0, PH_TITLE); (1, PH_PICTURE); (2, PH_BODY)];
      mkLayout "Title and Vertical Text" [(0, PH_TITLE); (1, PH_BODY)];
      mkLayout "Vertical Title and Text" [(0, PH_TITLE); (1, PH_BODY)] ]%nat
    [].

(** *** The document monad: state passing with exceptions *)

Definition D (A : Type) : Type := Document -> Result (A * Document).

#[global] Instance D_ret : MRet D := fun A a doc => Ok (a, doc).
#[global] Instance D_bind : MBind D := fun A B k m doc =>
  match m doc with
  | Ok (a, doc') => k a doc'
  | Raise e => Raise e
  end.

Definition raise {A : Type} (e : Exn) : D A := fun _ => Raise e.
Definition get_doc : D Document := fun doc => Ok (doc, doc).
Definition put_doc (doc : Document) : D unit := fun _ => Ok (tt, doc).

(** [for x in xs: body] *)
Fixpoint for_ {A : Type} (xs : list A) (body : A -> D unit) : D unit :=
  match xs with
  | [] => mret tt
  | x :: rest => body x ;; for_ rest body
  end.

(** Statements run one after the other. *)
Fixpoint run_all (stmts : list (D unit)) : D unit :=
  match stmts with
  | [] => mret tt
  | s :: rest => s ;; run_all rest
  end.

(** *** References *)

Definition SlideRef : Type := nat.
Definition ShapeRef : Type := (SlideRef * nat)%type.
Definition CellRef : Type := (ShapeRef * nat * nat)%type.

Inductive FrameRef : Type :=
| ShapeFrame (sh : ShapeRef)
| CellFrame (c : CellRef).

Definition ParRef : Type := (FrameRef * nat)%type.

(** A Python variable bound to a shape, or to [None]. *)
Definition PyShape : Type := option ShapeRef.

Definition deref (obj : PyShape) : D ShapeRef :=
  match obj with
  | Some sh => mret sh
  | None => raise AttributeError
  end.

Definition get_slide (s : SlideRef) : D Slide :=
  doc ← get_doc;
  match slides doc !! s with
  | Some sl => mret sl
  | None => raise IndexError
  end.

Definition put_slide (s : SlideRef) (sl : Slide) : D unit :=
  doc ← get_doc;
  put_doc (mkDocument (slide_width doc) (slide_height doc) (slide_layouts doc)
             (<[s := sl]> (slides doc))).

Definition get_shape (sh : ShapeRef) : D Shape :=
  sl ← get_slide sh.1;
  match shapes sl !! sh.2 with
  | Some x => mret x
  | None => raise IndexError
  end.

Definition put_shape (sh : ShapeRef) (x : Shape) : D unit :=
  sl ← get_slide sh.1;
  put_slide sh.1 (mkSlide (slide_layout sl) (<[sh.2 := x]> (shapes sl))).

Definition get_table (t : ShapeRef) : D Table :=
  x ← get_shape t;
  match x with
  | GraphicFrame _ tbl => mret tbl
  | _ => raise AttributeError
  end.

Definition put_table (t : ShapeRef) (tbl : Table) : D unit :=
  x ← get_shape t;
  match x with
  | GraphicFrame geom _ => put_shape t (GraphicFrame geom tbl)
  | _ => raise AttributeError
  end.

Definition get_cell (c : CellRef) : D Cell :=
  tbl ← get_table c.1.1;
  match table_rows tbl !! c.1.2 with
  | Some row =>
      match row !! c.2 with
      | Some x => mret x
      | None => raise IndexError
      end
  | None => raise IndexError
  end.

Definition put_cell (c : CellRef) (x : Cell) : D unit :=
  tbl ← get_table c.1.1;
  match table_rows tbl !! c.1.2 with
  | Some row =>
      put_table c.1.1
        (mkTable (column_widths tbl) (<[c.1.2 := <[c.2 := x]> row]> (table_rows tbl)))
  | None => raise IndexError
  end.

Definition get_frame (f : FrameRef) : D TextFrame :=
  match f with
  | ShapeFrame sh =>
      x ← get_shape sh;
      match x with
      | Placeholder _ _ tf | TextBox _ tf => mret tf
      | GraphicFrame _ _ => raise AttributeError
      end
  | CellFrame c => x ← get_cell c; mret (cell_frame x)
  end.

Definition put_frame (f : FrameRef) (tf : TextFrame) : D unit :=
  match f with
  | ShapeFrame sh =>
      x ← get_shape sh;
      match x with
      | Placeholder idx ty _ => put_shape sh (Placeholder idx ty tf)
      | TextBox geom _ => put_shape sh (TextBox geom tf)
      | GraphicFrame _ _ => raise AttributeError
      end
  | CellFrame c => x ← get_cell c; put_cell c (mkCell tf (cell_fill x))
  end.

Definition get_par (p : ParRef) : D Paragraph :=
  tf ← get_frame p.1;
  match tf !! p.2 with
  | Some x => mret x
  | None => raise IndexError
  end.

Definition modify_par (p : ParRef) (f : Paragraph -> Paragraph) : D unit :=
  tf ← get_frame p.1;
  match tf !! p.2 with
  | Some x => put_frame p.1 (<[p.2 := f x]> tf)
  | None => raise IndexError
  end.

(** *** The API calls the scripts make *)

(** [prs.slide_width = v], [prs.slide_height = v] *)
Definition set_slide_width (v : Length) : D unit :=
  doc ← get_doc;
  put_doc (mkDocument v (slide_height doc) (slide_layouts doc) (slides doc)).

Definition set_slide_height (v : Length) : D unit :=
  doc ← get_doc;
  put_doc (mkDocument (slide_width doc) v (slide_layouts doc) (slides doc)).

(** [prs.slide_layouts[i]] *)
Definition slide_layouts_getitem (i : nat) : D SlideLayout :=
  doc ← get_doc;
  match slide_layouts doc !! i with
  | Some layout => mret layout
  | None => raise IndexError
  end.

(** [prs.slides.add_slide(layout)]: the new slide comes last and starts
    with one empty placeholder per placeholder of its layout. *)
Definition add_slide (layout : SlideLayout) : D SlideRef :=
  doc ← get_doc;
  let sl := mkSlide layout
              ((λ ph, Placeholder ph.1 ph.2 new_text_frame) <$> layout_placeholders layout) in
  put_doc (mkDocument (slide_width doc) (slide_height doc) (slide_layouts doc)
             (slides doc ++ [sl])) ;;
  mret (List.length (slides doc)).

Definition placeholder_idx (x : Shape) : option nat :=
  match x with
  | Placeholder idx _ _ => Some idx
  | _ => None
  end.

(** Position of the first placeholder numbered [idx] among [xs]. *)
Fixpoint find_placeholder (idx : nat) (pos : nat) (xs : list Shape) : option nat :=
  match xs with
  | [] => None
  | x :: rest =>
      if decide (placeholder_idx x = Some idx) then Some pos
      else find_placeholder idx (S pos) rest
  end.

(** [slide.shapes.title]: the placeholder numbered 0, or [None]. *)
Definition shapes_title (s : SlideRef) : D PyShape :=
  sl ← get_slide s;
  mret ((λ pos, (s, pos)) <$> find_placeholder 0 0 (shapes sl)).

(** [slide.placeholders[idx]] looks a placeholder up by its number. *)
Definition placeholders_getitem (s : SlideRef) (idx : nat) : D PyShape :=
  sl ← get_slide s;
  match find_placeholder idx 0 (shapes sl) with
  | Some pos => mret (Some (s, pos))
  | None => raise KeyError
  end.

Definition append_shape (s : SlideRef) (x : Shape) : D PyShape :=
  sl ← get_slide s;
  put_slide s (mkSlide (slide_layout sl) (shapes sl ++ [x])) ;;
  mret (Some (s, List.length (shapes sl))).

(** [slide.shapes.add_textbox(left, top, width, height)] *)
Definition add_textbox (s : SlideRef) (left top width height : Length) : D PyShape :=
  append_shape s (TextBox (mkBox left top width height) new_text_frame).

Definition new_cell : Cell := mkCell new_text_frame FillInherited.

(** [slide.shapes.add_table(rows, cols, left, top, width, height)]: a
    graphic frame holding a grid of empty cells whose columns share the
    width. *)
Definition add_table (s : SlideRef) (rows cols : nat) (left top width height : Length)
  : D PyShape :=
  append_shape s
    (GraphicFrame (mkBox left top width height)
       (mkTable (replicate cols (width / Z.of_nat cols))
                (replicate rows (replicate cols new_cell)))).

(** [graphic_frame.table] *)
Definition table_of (obj : PyShape) : D ShapeRef :=
  sh ← deref obj;
  get_table sh ;;
  mret sh.

(** [shape.text_frame] *)
Definition text_frame (obj : PyShape) : D FrameRef :=
  sh ← deref obj;
  get_frame (ShapeFrame sh) ;;
  mret (ShapeFrame sh).

(** [text_frame.text = s] replaces the paragraphs by one per line of [s]. *)
Definition set_frame_text (f : FrameRef) (s : string) : D unit :=
  get_frame f ;;
  put_frame f
    ((λ line, mkParagraph line 0 empty_font None None) <$> split_lines s).

(** [text_frame.text]: the paragraphs' texts joined by line feeds. *)
Definition frame_text (tf : TextFrame) : string := join_lines (par_text <$> tf).

(** [shape.text = s] *)
Definition set_text (obj : PyShape) (s : string) : D unit :=
  f ← text_frame obj;
  set_frame_text f s.

(** [text_frame.paragraphs[i]] *)
Definition paragraphs_getitem (f : FrameRef) (i : nat) : D ParRef :=
  get_par (f, i) ;;
  mret (f, i).

(** [text_frame.clear()] keeps the first paragraph, emptied of its text. *)
Definition clear (f : FrameRef) : D unit :=
  tf ← get_frame f;
  match tf with
  | first :: _ =>
      put_frame f [mkParagraph EmptyString (par_level first) (par_font first)
                     (par_space_before first) (par_space_after first)]
  | [] => raise IndexError
  end.

(** [text_frame.add_paragraph()] *)
Definition add_paragraph (f : FrameRef) : D ParRef :=
  tf ← get_frame f;
  put_frame f (tf ++ [empty_paragraph]) ;;
  mret (f, List.length tf).

(** [p.text = s]; line feeds in [s] are line breaks inside the one
    paragraph. *)
Definition set_par_text (p : ParRef) (s : string) : D unit :=
  modify_par p (λ x, mkParagraph s (par_level x) (par_font x)
                       (par_space_before x) (par_space_after x)).

(** [p.level = n]; python-pptx accepts indentation levels 0 to 8. *)
Definition set_level (p : ParRef) (n : nat) : D unit :=
  if decide (n ≤ 8)%nat then
    modify_par p (λ x, mkParagraph (par_text x) n (par_font x)
                         (par_space_before x) (par_space_after x))
  else raise ValueError.

Definition modify_font (p : ParRef) (f : Font -> Font) : D unit :=
  modify_par p (λ x, mkParagraph (par_text x) (par_level x) (f (par_font x))
                       (par_space_before x) (par_space_after x)).

(** [p.font.size = v], [p.font.bold = b], [p.font.color.rgb = c] *)
Definition set_font_size (p : ParRef) (v : Length) : D unit :=
  modify_font p (λ f, mkFont (Some v) (font_bold f) (font_color f)).

Definition set_font_bold (p : ParRef) (b : bool) : D unit :=
  modify_font p (λ f, mkFont (font_size f) (Some b) (font_color f)).

Definition set_font_color_rgb (p : ParRef) (c : Color) : D unit :=
  modify_font p (λ f, mkFont (font_size f) (font_bold f) (Some c)).

(** [p.space_after = v], [p.space_before = v] *)
Definition set_space_after (p : ParRef) (v : Length) : D unit :=
  modify_par p (λ x, mkParagraph (par_text x) (par_level x) (par_font x)
                       (par_space_before x) (Some v)).

Definition set_space_before (p : ParRef) (v : Length) : D unit :=
  modify_par p (λ x, mkParagraph (par_text x) (par_level x) (par_font x)
                       (Some v) (par_space_after x)).

(** [table.columns[i].width = w] *)
Definition set_column_width (t : ShapeRef) (i : nat) (w : Length) : D unit :=
  tbl ← get_table t;
  match column_widths tbl !! i with
  | Some _ => put_table t (mkTable (<[i := w]> (column_widths tbl)) (table_rows tbl))
  | None => raise IndexError
  end.

(** [table.cell(row, col)] *)
Definition table_cell (t : ShapeRef) (row col : nat) : D CellRef :=
  get_cell (t, row, col) ;;
  mret (t, row, col).

(** [cell.text = s] *)
Definition set_cell_text (c : CellRef) (s : string) : D unit :=
  set_frame_text (CellFrame c) s.

(** [cell.fill.solid()] *)
Definition fill_solid (c : CellRef) : D unit :=
  x ← get_cell c;
  put_cell c (mkCell (cell_frame x) (FillSolid None)).

(** [cell.fill.fore_color.rgb = color]; a fill that is not solid has no
    foreground colour. *)
Definition set_fill_fore_color_rgb (c : CellRef) (color : Color) : D unit :=
  x ← get_cell c;
  match cell_fill x with
  | FillSolid _ => put_cell c (mkCell (cell_frame x) (FillSolid (Some color)))
  | FillInherited => raise TypeError
  end.

End Pptx.

(** [shape.text_frame.paragraphs[0]] and [cell.text_frame.paragraphs[0]] *)
Definition first_paragraph (obj : Pptx.PyShape) : Pptx.D Pptx.ParRef :=
  tf ← Pptx.text_frame obj;
  Pptx.paragraphs_getitem tf 0.

Definition cell_first_paragraph (c : Pptx.CellRef) : Pptx.D Pptx.ParRef :=
  Pptx.paragraphs_getitem (Pptx.CellFrame c) 0.

(** ** The process environment: working directory and standard output *)

Module Os.

(** What a run does to the outside, in order: attempts to write a file,
    lines printed. *)
Inductive Event : Type :=
| EvSave (path : string)
| EvPrint (line : string).

(** How the system answers the writing of a file.  [save] opens the file
    for writing, which creates it or empties it, and then writes the
    package into it.
    - [Accepted]: every byte is written.
    - [Refused e]: opening raises [e] (permission denied, a directory of
      that name, a read-only file system); nothing is touched.
    - [Torn e partial]: the file is opened, hence emptied, and a later write
      raises [e] (disk full, input/output error); [partial] is what the file
      holds then. *)
Inductive Write : Type :=
| Accepted
| Refused (e : Exn)
| Torn (e : Exn) (partial : list Byte.byte).

(** [files] maps the names in the working directory to their content;
    [disk path] is how the system answers the writing of [path];
    [console line] is the error standard output raises when [line] is
    written to it, if any ([UnicodeEncodeError] where its encoding lacks a
    character of the line); [clock] gives the readings of the system clock,
    the next one first. *)
Record World : Type := mkWorld {
  files : gmap string (list Byte.byte);
  disk : string -> Write;
  console : string -> option Exn;
  clock : nat -> Z;
  events : list Event
}.

(** The error writing [path] raises, if any. *)
Definition os_error (w : World) (path : string) : option Exn :=
  match disk w path with
  | Accepted => None
  | Refused e => Some e
  | Torn e _ => Some e
  end.

(** The clock's next reading, and the clock once that reading is taken. *)
Definition now (w : World) : Z := clock w 0%nat.
Definition later (clk : nat -> Z) : nat -> Z := λ n, clk (S n).

Definition M (A : Type) : Type := World -> Result A * World.

#[global] Instance M_ret : MRet M := fun A a w => (Ok a, w).
#[global] Instance M_bind : MBind M := fun A B k m w =>
  match m w with
  | (Ok a, w') => k a w'
  | (Raise e, w') => (Raise e, w')
  end.

(** The library as installed: the template [Presentation()] opens and the
    serializer behind [save].  The package is a zip archive whose entries
    carry the time of writing, so the bytes depend on the document and on
    what the clock reads during the save. *)
Record Runtime : Type := mkRuntime {
  bundled_template : Pptx.Document;
  serialize : Pptx.Document -> Z -> list Byte.byte
}.

(** python-pptx as distributed, around any serializer. *)
Definition python_pptx (ser : Pptx.Document -> Z -> list Byte.byte) : Runtime :=
  mkRuntime Pptx.default_template ser.

(** [prs = Presentation()] followed by the statements that build the
    document in memory; an exception raised there leaves the outside
    untouched. *)
Definition Presentation (rt : Runtime) (body : Pptx.D unit) : M Pptx.Document :=
  fun w =>
    match body (bundled_template rt) with
    | Ok (_, prs) => (Ok prs, w)
    | Raise e => (Raise e, w)
    end.

(** [prs.save(path)]: one attempt to write the package to [path].  An
    accepted write replaces the file of that name by the package stamped
    with the clock's reading; a refused one raises and touches nothing; a
    torn one raises and leaves what was written of the file. *)
Definition save (rt : Runtime) (prs : Pptx.Document) (path : string) : M unit :=
  fun w =>
    let attempted := events w ++ [EvSave path] in
    match disk w path with
    | Accepted =>
        (Ok tt,
         mkWorld (<[path := serialize rt prs (now w)]> (files w)) (disk w) (console w)
           (later (clock w)) attempted)
    | Refused e => (Raise e, mkWorld (files w) (disk w) (console w) (clock w) attempted)
    | Torn e partial =>
        (Raise e,
         mkWorld (<[path := partial]> (files w)) (disk w) (console w) (later (clock w)) attempted)
    end.

(** [print(line)]: the line reaches standard output, or standard output
    raises and nothing of the line is written. *)
Definition print (line : string) : M unit :=
  fun w =>
    match console w line with
    | Some e => (Raise e, w)
    | None =>
        (Ok tt, mkWorld (files w) (disk w) (console w) (clock w) (events w ++ [EvPrint line]))
    end.

(** The lines a run has printed. *)
Definition stdout (evs : list Event) : list string :=
  omap (λ ev, match ev with EvPrint line => Some line | EvSave _ => None end) evs.

(** The paths a run has tried to write. *)
Definition writes (evs : list Event) : list string :=
  omap (λ ev, match ev with EvSave path => Some path | EvPrint _ => None end) evs.

(** Of [lines] printed one after the other on a standard output that
    answers [err]: the lines that get through, and the error that stops the
    printing, if any. *)
Fixpoint printed (err : string -> option Exn) (lines : list string) : list string :=
  match lines with
  | [] => []
  | line :: rest =>
      match err line with
      | Some _ => []
      | None => line :: printed err rest
      end
  end.

Fixpoint refusal (err : string -> option Exn) (lines : list string) : option Exn :=
  match lines with
  | [] => None
  | line :: rest =>
      match err line with
      | Some e => Some e
      | None => refusal err rest
      end
  end.

End Os.

(** ** create_powerpoint_final.py *)

Module Final.
Import Pptx.

(* Color scheme *)
Definition PRIMARY_COLOR : Color := RGBColor 9 105 218.
Definition SECONDARY_COLOR : Color := RGBColor 31 136 61.
Definition DANGER_COLOR : Color := RGBColor 209 36 47.
Definition WARNING_COLOR : Color := RGBColor 251 133 0.
Definition DARK_COLOR : Color := RGBColor 36 41 47.

(* Create presentation with widescreen aspect ratio *)
Definition page_setup : D unit :=
  set_slide_width (Inches 13.333) ;;
  set_slide_height (Inches 7.5).

(* Slide 1: Title Slide - Communication Focus *)
Definition slide_1 : D unit :=
  slide_layout ← slide_layouts_getitem 0;
  slide ← add_slide slide_layout;
  title ← shapes_title slide;
  set_text title "🚀 GitHub Developer Workflow" ;;
  p ← first_paragraph title; set_font_size p (Pt 38) ;;
  p ← first_paragraph title; set_font_bold p true ;;
  p ← first_paragraph title; set_font_color_rgb p PRIMARY_COLOR ;;
  subtitle ← placeholders_getitem slide 1;
  set_text subtitle (py "Phase 1: Improve Team Communication & Standards\n\n💬 Better Collaboration | 📝 Consistent Documentation | ⚡ Faster Decisions\n\nPhase 2: Full GitHub Project Management (Future)\n\nPresented by: Amna & Hanzla") ;;
  p ← first_paragraph subtitle; set_font_size p (Pt 16).

Definition agenda_items : list (string * string) := [
  ("🔴 Communication Pain Points", "4 min");
  ("💬 Phase 1: Improve Team Communication", "8 min");
  ("📝 Templates & Standards", "6 min");
  ("🎯 Quick Wins Demo", "5 min");
  ("📊 Phase 1 Implementation (2 weeks)", "4 min");
  ("🚀 Phase 2 Vision (Future)", "3 min")
].

(* Slide 2: Agenda - Smaller fonts, more spacing *)
Definition slide_2 : D unit :=
  slide_layout ← slide_layouts_getitem 1;
  slide ← add_slide slide_layout;
  title ← shapes_title slide;
  set_text title "📋 Communication-First Agenda" ;;
  content ← placeholders_getitem slide 1;
  tf ← text_frame content;
  clear tf ;;
  for_ agenda_items (λ '(item, time),
    p ← add_paragraph tf;
    set_par_text p (item +:+ " (" +:+ time +:+ ")") ;;
    set_level p 0 ;;
    set_font_size p (Pt 20) ;;
    set_font_bold p true ;;
    set_space_after p (Pt 12)).

Definition challenges : list (string * list string) := [
  ("🔧 Process Communication (40% Impact)", [
     "Unclear requirements in issues";
     "Missing context in PRs";
     "No standard templates"
   ]);
  ("👥 Team Communication (35% Impact)", [
     "Knowledge silos";
     "Delayed feedback";
     "Inconsistent updates"
   ]);
  ("📋 Documentation Issues (25% Impact)", [
     "Outdated information";
     "Missing project context";
     "No standardized formats"
   ])
].

(* Slide 3: Communication Challenges *)
Definition slide_3 : D unit :=
  slide_layout ← slide_layouts_getitem 1;
  slide ← add_slide slide_layout;
  title ← shapes_title slide;
  set_text title "💬 Communication Challenges" ;;
  content ← placeholders_getitem slide 1;
  tf ← text_frame content;
  clear tf ;;
  for_ challenges (λ '(category, items),
    p ← add_paragraph tf;
    set_par_text p category ;;
    set_level p 0 ;;
    set_font_size p (Pt 18) ;;
    set_font_bold p true ;;
    set_font_color_rgb p DANGER_COLOR ;;
    for_ items (λ item,
      p ← add_paragraph tf;
      set_par_text p ("• " +:+ item) ;;
      set_level p 1 ;;
      set_font_size p (Pt 15)) ;;
    add_paragraph tf ;; mret tt).

Definition benefits : list string := [
  "✅ Immediate impact on team productivity";
  "✅ Low implementation effort, high value";
  "✅ Builds foundation for Phase 2 (full methodology)";
  "✅ Everyone can contribute regardless of GitHub experience";
  "✅ Reduces confusion and rework by 60%"
].

(* Slide 4: Phase 1 Focus *)
Definition slide_4 : D unit :=
  slide_layout ← slide_layouts_getitem 1;
  slide ← add_slide slide_layout;
  title ← shapes_title slide;
  set_text title "💬 Phase 1: Communication First" ;;
  let left := Inches 1 in
  let top := Inches 1.8 in
  let width := Inches 11.5 in
  let height := Inches 5 in
  content_box ← add_textbox slide left top width height;
  tf ← text_frame content_box;
  clear tf ;;
  p ← add_paragraph tf;
  set_par_text p "🎯 Why Communication First?" ;;
  set_font_size p (Pt 22) ;;
  set_font_bold p true ;;
  set_font_color_rgb p PRIMARY_COLOR ;;
  set_space_after p (Pt 15) ;;
  for_ benefits (λ benefit,
    p ← add_paragraph tf;
    set_par_text p benefit ;;
    set_font_size p (Pt 18) ;;
    set_space_after p (Pt 10)).

Definition headers : list string :=
  ["Communication Tool"; "Current State"; "Phase 1 Improvement"].

Definition data : list (list string) := [
  ["📋 Issue Creation"; "Vague descriptions"; "Smart templates"];
  ["🔄 Pull Requests"; "Missing context"; "Standard format"];
  ["🏷️ Labels"; "Inconsistent usage"; "Clear taxonomy"];
  ["💬 Communication"; "Ad-hoc updates"; "Structured process"]
].

(* Slide 5: Phase 1 Implementation *)
Definition slide_5 : D unit :=
  slide_layout ← slide_layouts_getitem 1;
  slide ← add_slide slide_layout;
  title ← shapes_title slide;
  set_text title "📝 Phase 1: Templates & Standards" ;;
  let left := Inches 0.5 in
  let top := Inches 1.8 in
  let width := Inches 12.3 in
  let height := Inches 4.5 in
  frame ← add_table slide 5 3 left top width height;
  table ← table_of frame;
  set_column_width table 0 (Inches 4.5) ;;
  set_column_width table 1 (Inches 3.9) ;;
  set_column_width table 2 (Inches 3.9) ;;
  for_ (enumerate 0 headers) (λ '(col, header),
    cell ← table_cell table 0 col;
    set_cell_text cell header ;;
    p ← cell_first_paragraph cell; set_font_bold p true ;;
    p ← cell_first_paragraph cell; set_font_size p (Pt 16) ;;
    p ← cell_first_paragraph cell; set_font_color_rgb p (RGBColor 255 255 255) ;;
    fill_solid cell ;;
    set_fill_fore_color_rgb cell PRIMARY_COLOR) ;;
  for_ (enumerate 1 data) (λ '(row_idx, row_data),
    for_ (enumerate 0 row_data) (λ '(col_idx, value),
      cell ← table_cell table row_idx col_idx;
      set_cell_text cell value ;;
      p ← cell_first_paragraph cell; set_font_size p (Pt 14))).

Definition quick_wins : list string := [
  "📝 Deploy issue templates (1 hour setup)";
  "✅ Add PR template (30 minutes)";
  "🏷️ Create basic label set (15 labels max)";
  "📋 Team training session (1 hour)";
  "💬 Establish update rhythm (daily/weekly)"
].

(* Slide 6: Quick Wins *)
Definition slide_6 : D unit :=
  slide_layout ← slide_layouts_getitem 1;
  slide ← add_slide slide_layout;
  title ← shapes_title slide;
  set_text title "⚡ Phase 1 Quick Wins (Week 1)" ;;
  content ← placeholders_getitem slide 1;
  tf ← text_frame content;
  clear tf ;;
  for_ quick_wins (λ win,
    p ← add_paragraph tf;
    set_par_text p win ;;
    set_font_size p (Pt 20) ;;
    set_space_after p (Pt 15)).

(* Slide 7: Issue Templates Demo *)
Definition slide_7 : D unit :=
  slide_layout ← slide_layouts_getitem 1;
  slide ← add_slide slide_layout;
  title ← shapes_title slide;
  set_text title "📋 Better Issue Communication" ;;
  let left := Inches 0.5 in
  let top := Inches 1.8 in
  let width := Inches 6 in
  let height := Inches 4.5 in
  before_box ← add_textbox slide left top width height;
  tf ← text_frame before_box;
  clear tf ;;
  p ← add_paragraph tf;
  set_par_text p "❌ Before: Poor Communication" ;;
  set_font_size p (Pt 18) ;;
  set_font_bold p true ;;
  set_font_color_rgb p DANGER_COLOR ;;
  p ← add_paragraph tf;
  set_par_text p (py "Title: Bug\nDescription: It's broken\n\nResult:\n• Unclear scope\n• Missing context\n• Back-and-forth questions\n• Delayed resolution") ;;
  set_font_size p (Pt 14) ;;
  let right_left := Inches 7 in
  after_box ← add_textbox slide right_left top width height;
  tf ← text_frame after_box;
  clear tf ;;
  p ← add_paragraph tf;
  set_par_text p "✅ After: Clear Communication" ;;
  set_font_size p (Pt 18) ;;
  set_font_bold p true ;;
  set_font_color_rgb p SECONDARY_COLOR ;;
  p ← add_paragraph tf;
  set_par_text p (py "🐛 Login Error on Mobile\n\nPriority: High\nSteps: 1. Open app 2. Enter credentials\nExpected: Dashboard loads\nActual: 500 error\nScreenshot: [attached]\n\nResult:\n• Clear understanding\n• Immediate action\n• Faster resolution") ;;
  set_font_size p (Pt 14).

Definition roadmap : list (string * string) := [
  ("Week 1: Foundation", "✅ Templates | ✅ Labels | ✅ Training | ✅ First PRs");
  ("Week 2: Adoption", "📊 Measure usage | 🔄 Iterate | 💬 Feedback | 🎯 Refine")
].

Definition results : list string := [
  "🎯 80% of issues use templates";
  "💬 Clearer team communication";
  "⚡ 30% faster issue resolution";
  "📋 Consistent documentation"
].

(* Slide 8: 2-Week Implementation Plan *)
Definition slide_8 : D unit :=
  slide_layout ← slide_layouts_getitem 1;
  slide ← add_slide slide_layout;
  title ← shapes_title slide;
  set_text title "📅 Phase 1: 2-Week Implementation" ;;
  content ← placeholders_getitem slide 1;
  tf ← text_frame content;
  clear tf ;;
  for_ roadmap (λ '(week, tasks),
    p ← add_paragraph tf;
    set_par_text p week ;;
    set_font_size p (Pt 22) ;;
    set_font_bold p true ;;
    set_font_color_rgb p PRIMARY_COLOR ;;
    p ← add_paragraph tf;
    set_par_text p tasks ;;
    set_font_size p (Pt 18) ;;
    set_space_after p (Pt 20)) ;;
  p ← add_paragraph tf;
  set_par_text p "Expected Results After 2 Weeks:" ;;
  set_font_size p (Pt 20) ;;
  set_font_bold p true ;;
  for_ results (λ result,
    p ← add_paragraph tf;
    set_par_text p result ;;
    set_font_size p (Pt 16)).

Definition phase2_items : list string := [
  "📊 GitHub Project Boards for sprint management";
  "🤖 Automated workflows and quality gates";
  "📈 Sprint planning and velocity tracking";
  "🔄 Full CI/CD integration";
  "📋 Advanced reporting and analytics"
].

(* Slide 9: Phase 2 Vision *)
Definition slide_9 : D unit :=
  slide_layout ← slide_layouts_getitem 1;
  slide ← add_slide slide_layout;
  title ← shapes_title slide;
  set_text title "🚀 Phase 2: Full Methodology (Future)" ;;
  content ← placeholders_getitem slide 1;
  tf ← text_frame content;
  clear tf ;;
  p ← add_paragraph tf;
  set_par_text p "After Phase 1 Success, We'll Add:" ;;
  set_font_size p (Pt 20) ;;
  set_font_bold p true ;;
  set_font_color_rgb p PRIMARY_COLOR ;;
  set_space_after p (Pt 15) ;;
  for_ phase2_items (λ item,
    p ← add_paragraph tf;
    set_par_text p item ;;
    set_font_size p (Pt 18) ;;
    set_space_after p (Pt 10)) ;;
  p ← add_paragraph tf;
  set_par_text p (py "\n🎯 Timeline: After Phase 1 proves communication improvements") ;;
  set_font_size p (Pt 16) ;;
  set_font_color_rgb p SECONDARY_COLOR ;;
  set_font_bold p true.

Definition actions : list string := [
  "☑️ Add issue template to one repository";
  "☑️ Create basic label set (5-10 labels)";
  "☑️ Add PR template";
  "☑️ Team intro session (30 minutes)";
  "☑️ Try on 2-3 issues this week"
].

(* Slide 10: Action Items *)
Definition slide_10 : D unit :=
  slide_layout ← slide_layouts_getitem 1;
  slide ← add_slide slide_layout;
  title ← shapes_title slide;
  set_text title "🎬 Start Phase 1 Today" ;;
  content ← placeholders_getitem slide 1;
  tf ← text_frame content;
  clear tf ;;
  p ← add_paragraph tf;
  set_par_text p "Immediate Actions (This Week):" ;;
  set_font_size p (Pt 22) ;;
  set_font_bold p true ;;
  set_font_color_rgb p PRIMARY_COLOR ;;
  set_space_after p (Pt 15) ;;
  for_ actions (λ action,
    p ← add_paragraph tf;
    set_par_text p action ;;
    set_font_size p (Pt 18) ;;
    set_space_after p (Pt 8)) ;;
  p ← add_paragraph tf;
  set_par_text p (py "\nResources:") ;;
  set_font_size p (Pt 20) ;;
  set_font_bold p true ;;
  set_space_before p (Pt 20) ;;
  p ← add_paragraph tf;
  set_par_text p "📦 Templates: github.com/hanzlahabib/github-workflow-demo" ;;
  set_font_size p (Pt 16).

Definition questions : list string := [
  "✅ How do we get team buy-in for templates?";
  "✅ What if people forget to use them?";
  "✅ How do we measure communication improvement?";
  "✅ When do we move to Phase 2?"
].

(* Slide 11: Questions *)
Definition slide_11 : D unit :=
  slide_layout ← slide_layouts_getitem 1;
  slide ← add_slide slide_layout;
  title ← shapes_title slide;
  set_text title "💡 Questions & Discussion" ;;
  content ← placeholders_getitem slide 1;
  tf ← text_frame content;
  clear tf ;;
  p ← add_paragraph tf;
  set_par_text p "Phase 1 Questions:" ;;
  set_font_size p (Pt 20) ;;
  set_font_bold p true ;;
  set_space_after p (Pt 15) ;;
  for_ questions (λ q,
    p ← add_paragraph tf;
    set_par_text p q ;;
    set_font_size p (Pt 18) ;;
    set_space_after p (Pt 10)) ;;
  p ← add_paragraph tf;
  set_par_text p (py "\nContact:") ;;
  set_font_size p (Pt 20) ;;
  set_font_bold p true ;;
  set_space_before p (Pt 20) ;;
  p ← add_paragraph tf;
  set_par_text p (py "GitHub: @hanzlahabib | @amna\nDemo: github.com/hanzlahabib/github-workflow-demo") ;;
  set_font_size p (Pt 16).

(* Slide 12: Thank You *)
Definition slide_12 : D unit :=
  slide_layout ← slide_layouts_getitem 0;
  slide ← add_slide slide_layout;
  title ← shapes_title slide;
  set_text title "🙏 Thank You!" ;;
  p ← first_paragraph title; set_font_size p (Pt 42) ;;
  p ← first_paragraph title; set_font_bold p true ;;
  subtitle ← placeholders_getitem slide 1;
  set_text subtitle (py "Ready to Improve Team Communication?\n\n💬 Start Phase 1 This Week\n📈 Measure the Impact\n🚀 Prepare for Phase 2\n\nLet's build better software, together.") ;;
  p ← first_paragraph subtitle; set_font_size p (Pt 18).

(** The slide sections of the script, in source order. *)
Definition slide_sections : list (D unit) :=
  [slide_1; slide_2; slide_3; slide_4; slide_5; slide_6;
   slide_7; slide_8; slide_9; slide_10; slide_11; slide_12].

(** Lines 16 to 442: everything between [Presentation()] and [prs.save]. *)
Definition deck : D unit :=
  page_setup ;;
  run_all slide_sections.

Definition output_file : string := "GitHub_Workflow_Communication_First.pptx".

Definition create_presentation (rt : Os.Runtime) : Os.M unit :=
  prs ← Os.Presentation rt deck;
  (* Save the presentation *)
  Os.save rt prs "GitHub_Workflow_Communication_First.pptx" ;;
  Os.print "✅ Communication-focused PowerPoint created successfully!" ;;
  Os.print "📁 File saved as: GitHub_Workflow_Communication_First.pptx" ;;
  Os.print "💬 Emphasizes Phase 1: Communication improvement" ;;
  Os.print "🎯 Properly sized for full content visibility".

End Final.

(** ** create_powerpoint_improved.py *)

Module Improved.
Import Pptx.

(* Color scheme *)
Definition PRIMARY_COLOR : Color := RGBColor 9 105 218.
Definition SECONDARY_COLOR : Color := RGBColor 31 136 61.
Definition DANGER_COLOR : Color := RGBColor 209 36 47.
Definition WARNING_COLOR : Color := RGBColor 251 133 0.
Definition DARK_COLOR : Color := RGBColor 36 41 47.

(* Create presentation with widescreen aspect ratio *)
Definition page_setup : D unit :=
  set_slide_width (Inches 13.333) ;;
  set_slide_height (Inches 7.5).

(* Slide 1: Title Slide *)
Definition slide_1 : D unit :=
  slide_layout ← slide_layouts_getitem 0;
  slide ← add_slide slide_layout;
  title ← shapes_title slide;
  set_text title "🚀 GitHub Developer Workflow" ;;
  p ← first_paragraph title; set_font_size p (Pt 42) ;;
  p ← first_paragraph title; set_font_bold p true ;;
  p ← first_paragraph title; set_font_color_rgb p PRIMARY_COLOR ;;
  subtitle ← placeholders_getitem slide 1;
  set_text subtitle (py "From Chaos to Clarity: Two-Phase Transformation\n\n🎯 Phase 1: Improve Communication & Standards\n🚀 Phase 2: Full GitHub Project & Agile Methodology\n\n📈 60% Faster PR Cycles | 40% Fewer Bugs | 90% Team Satisfaction\n\nPresented by: Amna & Hanzla") ;;
  p ← first_paragraph subtitle; set_font_size p (Pt 16).

Definition agenda_items : list (string * string * string) := [
  ("🔴 Current Pain Points", "5 min", "Identify workflow challenges");
  ("🟡 Root Cause Analysis", "3 min", "Understanding persistence");
  ("🟢 Solution Architecture", "10 min", "GitHub-based workflow system");
  ("🎯 Live Demonstration", "7 min", "See workflow in action");
  ("📊 Implementation Roadmap", "5 min", "30-day transformation plan")
].

(* Slide 2: Agenda *)
Definition slide_2 : D unit :=
  slide_layout ← slide_layouts_getitem 1;
  slide ← add_slide slide_layout;
  title ← shapes_title slide;
  set_text title "📋 Agenda" ;;
  content ← placeholders_getitem slide 1;
  tf ← text_frame content;
  clear tf ;;
  for_ agenda_items (λ '(item, time, desc),
    p ← add_paragraph tf;
    set_par_text p (item +:+ " (" +:+ time +:+ ")") ;;
    set_level p 0 ;;
    set_font_size p (Pt 17) ;;
    set_font_bold p true ;;
    p ← add_paragraph tf;
    set_par_text p desc ;;
    set_level p 1 ;;
    set_font_size p (Pt 14) ;;
    set_space_after p (Pt 8)).

Definition challenges : list (string * list string) := [
  ("🔧 Process Issues (40% Impact)", [
     "Split Project Management - Multiple tools";
     "Inconsistent Formats - 30+ min/PR overhead";
     "Unclear Sprint Boundaries - 25% scope creep"
   ]);
  ("👥 People Issues (35% Impact)", [
     "Knowledge Gap - Single points of failure";
     "Poor Communication - Delayed decisions";
     "Review Quality vs Delay - 3-day PR lifecycle"
   ]);
  ("🛠️ Technical Debt (25% Impact)", [
     "Production Bugs - Missing quality gates";
     "Outdated Docs - 60% onboarding confusion";
     "Notification Chaos - Important items missed"
   ])
].

(* Slide 3: Challenges *)
Definition slide_3 : D unit :=
  slide_layout ← slide_layouts_getitem 1;
  slide ← add_slide slide_layout;
  title ← shapes_title slide;
  set_text title "🚨 Current Challenges" ;;
  content ← placeholders_getitem slide 1;
  tf ← text_frame content;
  clear tf ;;
  for_ challenges (λ '(category, items),
    p ← add_paragraph tf;
    set_par_text p category ;;
    set_level p 0 ;;
    set_font_size p (Pt 16) ;;
    set_font_bold p true ;;
    set_font_color_rgb p DANGER_COLOR ;;
    for_ items (λ item,
      p ← add_paragraph tf;
      set_par_text p ("• " +:+ item) ;;
      set_level p 1 ;;
      set_font_size p (Pt 13)) ;;
    add_paragraph tf ;; mret tt).

Definition before_items : list string := [
  "5+ tools for project management";
  "3-day PR review cycle";
  "40% PRs missing context";
  "Weekly production bugs";
  "60% sprint completion rate"
].

Definition after_items : list string := [
  "Single GitHub workspace";
  "4-hour PR review cycle";
  "100% PRs with templates";
  "90% bug reduction";
  "92% sprint completion rate"
].

(* Slide 4: Transformation *)
Definition slide_4 : D unit :=
  slide_layout ← slide_layouts_getitem 1;
  slide ← add_slide slide_layout;
  title ← shapes_title slide;
  set_text title "🔄 From Chaos to Clarity" ;;
  let left := Inches 0.3 in
  let top := Inches 1.6 in
  let width := Inches 6.4 in
  let height := Inches 5.2 in
  left_content ← add_textbox slide left top width height;
  tf ← text_frame left_content;
  clear tf ;;
  p ← add_paragraph tf;
  set_par_text p "😰 Before (Chaos)" ;;
  set_font_size p (Pt 18) ;;
  set_font_bold p true ;;
  set_font_color_rgb p DANGER_COLOR ;;
  for_ before_items (λ item,
    p ← add_paragraph tf;
    set_par_text p ("• " +:+ item) ;;
    set_font_size p (Pt 15) ;;
    set_space_after p (Pt 4)) ;;
  let right_left := Inches 6.9 in
  right_content ← add_textbox slide right_left top width height;
  tf ← text_frame right_content;
  clear tf ;;
  p ← add_paragraph tf;
  set_par_text p "🎯 After (Clarity)" ;;
  set_font_size p (Pt 18) ;;
  set_font_bold p true ;;
  set_font_color_rgb p SECONDARY_COLOR ;;
  for_ after_items (λ item,
    p ← add_paragraph tf;
    set_par_text p ("✅ " +:+ item) ;;
    set_font_size p (Pt 15) ;;
    set_space_after p (Pt 4)).

Definition headers : list string := ["Component"; "Impact"; "Effort"; "Timeline"].

Definition data : list (list string) := [
  ["📊 GitHub Project Boards"; "⭐⭐⭐ High"; "Low"; "Week 1"];
  ["📝 Issue Templates"; "⭐⭐⭐ High"; "Low"; "Week 1"];
  ["✅ PR Templates"; "⭐⭐⭐ High"; "Low"; "Week 1"];
  ["🤖 GitHub Actions"; "⭐⭐⭐ High"; "Medium"; "Week 2"];
  ["🏷️ Label Taxonomy"; "⭐⭐ Medium"; "Low"; "Week 1"]
].

(* Slide 5: Solution Overview *)
Definition slide_5 : D unit :=
  slide_layout ← slide_layouts_getitem 1;
  slide ← add_slide slide_layout;
  title ← shapes_title slide;
  set_text title "💡 Solution Architecture" ;;
  let left := Inches 0.3 in
  let top := Inches 1.6 in
  let width := Inches 12.7 in
  let height := Inches 4.8 in
  frame ← add_table slide 6 4 left top width height;
  table ← table_of frame;
  set_column_width table 0 (Inches 4.2) ;;
  set_column_width table 1 (Inches 2.8) ;;
  set_column_width table 2 (Inches 2.8) ;;
  set_column_width table 3 (Inches 2.9) ;;
  for_ (enumerate 0 headers) (λ '(col, header),
    cell ← table_cell table 0 col;
    set_cell_text cell header ;;
    p ← cell_first_paragraph cell; set_font_bold p true ;;
    p ← cell_first_paragraph cell; set_font_size p (Pt 15) ;;
    p ← cell_first_paragraph cell; set_font_color_rgb p (RGBColor 255 255 255) ;;
    fill_solid cell ;;
    set_fill_fore_color_rgb cell PRIMARY_COLOR) ;;
  for_ (enumerate 1 data) (λ '(row_idx, row_data),
    for_ (enumerate 0 row_data) (λ '(col_idx, value),
      cell ← table_cell table row_idx col_idx;
      set_cell_text cell value ;;
      p ← cell_first_paragraph cell; set_font_size p (Pt 13))).

Definition workflow_steps : list string := [
  "📝 Issue Created → Template enforced";
  "🏷️ Auto-labeled → Type & Priority assigned";
  "📊 Added to Board → Sprint assigned automatically";
  "🌿 Branch Created → Follows naming convention";
  "🔄 PR Opened → Template applied, checks triggered";
  "✅ Auto-checks → Quality gates enforced";
  "🚀 Merged → Automatic deployment"
].

(* Slide 6: Workflow Automation *)
Definition slide_6 : D unit :=
  slide_layout ← slide_layouts_getitem 1;
  slide ← add_slide slide_layout;
  title ← shapes_title slide;
  set_text title "⚙️ Automated Workflow" ;;
  content ← placeholders_getitem slide 1;
  tf ← text_frame content;
  clear tf ;;
  for_ workflow_steps (λ step,
    p ← add_paragraph tf;
    set_par_text p step ;;
    set_font_size p (Pt 16) ;;
    set_space_after p (Pt 8)).

(* Slide 7: Label System *)
Definition slide_7 : D unit :=
  slide_layout ← slide_layouts_getitem 1;
  slide ← add_slide slide_layout;
  title ← shapes_title slide;
  set_text title "🏷️ Intelligent Label Taxonomy" ;;
  content ← placeholders_getitem slide 1;
  tf ← text_frame content;
  clear tf ;;
  p ← add_paragraph tf;
  set_par_text p "Type Labels (One Required):" ;;
  set_font_size p (Pt 17) ;;
  set_font_bold p true ;;
  p ← add_paragraph tf;
  set_par_text p "🟦 type: feature   🟥 type: bug   🟨 type: task" ;;
  set_font_size p (Pt 15) ;;
  set_space_after p (Pt 15) ;;
  p ← add_paragraph tf;
  set_par_text p "Priority Matrix:" ;;
  set_font_size p (Pt 17) ;;
  set_font_bold p true ;;
  p ← add_paragraph tf;
  set_par_text p "🔴 critical   🟠 high   🟡 medium   🟢 low" ;;
  set_font_size p (Pt 15) ;;
  set_space_after p (Pt 15) ;;
  p ← add_paragraph tf;
  set_par_text p "Workflow Status (Auto-updated):" ;;
  set_font_size p (Pt 17) ;;
  set_font_bold p true ;;
  p ← add_paragraph tf;
  set_par_text p "📋 backlog → 📝 todo → 🏃 in-progress" ;;
  set_font_size p (Pt 15) ;;
  p ← add_paragraph tf;
  set_par_text p "🚫 blocked → 👀 review → ✅ done" ;;
  set_font_size p (Pt 15).

Definition roadmap : list (string * string) := [
  ("Week 1: Foundation", "✅ Deploy templates | ✅ Configure labels | ✅ Team training");
  ("Week 2: Automation", "⚙️ GitHub Actions | 📊 Project boards | 🔗 Integrations");
  ("Week 3: Integration", "💬 Slack notifications | 📈 Analytics dashboard");
  ("Week 4: Optimization", "🎯 Refine workflows | 📊 Measure success | 🚀 Scale")
].

(* Slide 8: Implementation Roadmap *)
Definition slide_8 : D unit :=
  slide_layout ← slide_layouts_getitem 1;
  slide ← add_slide slide_layout;
  title ← shapes_title slide;
  set_text title "🚀 30-Day Implementation Plan" ;;
  content ← placeholders_getitem slide 1;
  tf ← text_frame content;
  clear tf ;;
  for_ roadmap (λ '(week, tasks),
    p ← add_paragraph tf;
    set_par_text p week ;;
    set_font_size p (Pt 18) ;;
    set_font_bold p true ;;
    set_font_color_rgb p PRIMARY_COLOR ;;
    p ← add_paragraph tf;
    set_par_text p tasks ;;
    set_font_size p (Pt 15) ;;
    set_space_after p (Pt 12)).

Definition metrics_before : list string := [
  "PR Cycle: 3 days";
  "Bug Rate: 15%";
  "Sprint Success: 60%";
  "Team Satisfaction: 6/10"
].

Definition metrics_after : list string := [
  "PR Cycle: 4 hours ⬇️ 87%";
  "Bug Rate: 3% ⬇️ 80%";
  "Sprint Success: 92% ⬆️ 53%";
  "Team Satisfaction: 9/10 ⬆️ 50%"
].

(* Slide 9: Success Metrics *)
Definition slide_9 : D unit :=
  slide_layout ← slide_layouts_getitem 1;
  slide ← add_slide slide_layout;
  title ← shapes_title slide;
  set_text title "📈 Measurable Success" ;;
  let left := Inches 0.3 in
  let top := Inches 1.6 in
  let width := Inches 6.4 in
  let height := Inches 5.2 in
  left_content ← add_textbox slide left top width height;
  tf ← text_frame left_content;
  clear tf ;;
  p ← add_paragraph tf;
  set_par_text p "📊 Before" ;;
  set_font_size p (Pt 20) ;;
  set_font_bold p true ;;
  for_ metrics_before (λ metric,
    p ← add_paragraph tf;
    set_par_text p metric ;;
    set_font_size p (Pt 16) ;;
    set_space_after p (Pt 8)) ;;
  let right_left := Inches 6.9 in
  right_content ← add_textbox slide right_left top width height;
  tf ← text_frame right_content;
  clear tf ;;
  p ← add_paragraph tf;
  set_par_text p "🎯 After 30 Days" ;;
  set_font_size p (Pt 20) ;;
  set_font_bold p true ;;
  set_font_color_rgb p SECONDARY_COLOR ;;
  for_ metrics_after (λ metric,
    p ← add_paragraph tf;
    set_par_text p metric ;;
    set_font_size p (Pt 16) ;;
    set_space_after p (Pt 8)).

Definition actions : list string := [
  "☑️ Create your first project board";
  "☑️ Import standard label set";
  "☑️ Add issue templates";
  "☑️ Enable branch protection";
  "☑️ Configure PR template"
].

(* Slide 10: Action Items *)
Definition slide_10 : D unit :=
  slide_layout ← slide_layouts_getitem 1;
  slide ← add_slide slide_layout;
  title ← shapes_title slide;
  set_text title "🎬 Immediate Actions" ;;
  content ← placeholders_getitem slide 1;
  tf ← text_frame content;
  clear tf ;;
  p ← add_paragraph tf;
  set_par_text p "Do Today:" ;;
  set_font_size p (Pt 20) ;;
  set_font_bold p true ;;
  set_font_color_rgb p PRIMARY_COLOR ;;
  for_ actions (λ action,
    p ← add_paragraph tf;
    set_par_text p action ;;
    set_font_size p (Pt 17) ;;
    set_space_after p (Pt 6)) ;;
  p ← add_paragraph tf;
  set_par_text p (py "\nResources:") ;;
  set_font_size p (Pt 19) ;;
  set_font_bold p true ;;
  p ← add_paragraph tf;
  set_par_text p "📦 Templates: github.com/hanzlahabib/github-workflow-demo" ;;
  set_font_size p (Pt 15).

Definition questions : list string := [
  "✅ How do we handle urgent hotfixes?";
  "✅ What about multiple repositories?";
  "✅ How to migrate existing issues?";
  "✅ What's the actual ROI?"
].

Definition contact_info : list string := [
  "GitHub: @hanzlahabib | @amna";
  "Demo: github.com/hanzlahabib/github-workflow-demo";
  "Office Hours: Thursdays 2-3 PM"
].

(* Slide 11: Q&A *)
Definition slide_11 : D unit :=
  slide_layout ← slide_layouts_getitem 1;
  slide ← add_slide slide_layout;
  title ← shapes_title slide;
  set_text title "💡 Questions & Discussion" ;;
  content ← placeholders_getitem slide 1;
  tf ← text_frame content;
  clear tf ;;
  p ← add_paragraph tf;
  set_par_text p "Common Questions:" ;;
  set_font_size p (Pt 19) ;;
  set_font_bold p true ;;
  for_ questions (λ q,
    p ← add_paragraph tf;
    set_par_text p q ;;
    set_font_size p (Pt 16) ;;
    set_space_after p (Pt 8)) ;;
  p ← add_paragraph tf;
  set_par_text p (py "\nContact & Support:") ;;
  set_font_size p (Pt 19) ;;
  set_font_bold p true ;;
  set_space_before p (Pt 15) ;;
  for_ contact_info (λ info,
    p ← add_paragraph tf;
    set_par_text p info ;;
    set_font_size p (Pt 15)).

(* Slide 12: Thank You *)
Definition slide_12 : D unit :=
  slide_layout ← slide_layouts_getitem 0;
  slide ← add_slide slide_layout;
  title ← shapes_title slide;
  set_text title "🙏 Thank You!" ;;
  p ← first_paragraph title; set_font_size p (Pt 46) ;;
  p ← first_paragraph title; set_font_bold p true ;;
  subtitle ← placeholders_getitem slide 1;
  set_text subtitle (py "Ready to Transform Your Workflow?\n\n🚀 Start Your 30-Day Journey Today\n\nLet's build better software, together.") ;;
  p ← first_paragraph subtitle; set_font_size p (Pt 20).

(** The slide sections of the script, in source order. *)
Definition slide_sections : list (D unit) :=
  [slide_1; slide_2; slide_3; slide_4; slide_5; slide_6;
   slide_7; slide_8; slide_9; slide_10; slide_11; slide_12].

(** Lines 16 to 486: everything between [Presentation()] and [prs.save]. *)
Definition deck : D unit :=
  page_setup ;;
  run_all slide_sections.

Definition output_file : string := "GitHub_Workflow_Best_Practices_Improved.pptx".

Definition create_presentation (rt : Os.Runtime) : Os.M unit :=
  prs ← Os.Presentation rt deck;
  (* Save the presentation *)
  Os.save rt prs "GitHub_Workflow_Best_Practices_Improved.pptx" ;;
  Os.print "✅ Improved PowerPoint presentation created successfully!" ;;
  Os.print "📁 File saved as: GitHub_Workflow_Best_Practices_Improved.pptx" ;;
  Os.print "🎯 Optimized for better visibility and content fitting".

End Improved.

(** ** Reading a document back *)

Module Deck.
Import Pptx.

Definition shape_frame (x : Shape) : option TextFrame :=
  match x with
  | Placeholder _ _ tf | TextBox _ tf => Some tf
  | GraphicFrame _ _ => None
  end.

(** The text of a slide's title placeholder. *)
Definition slide_title (s : Slide) : option string :=
  pos ← find_placeholder 0 0 (shapes s);
  x ← shapes s !! pos;
  frame_text <$> shape_frame x.

Definition slide_titles (doc : Document) : list (option string) :=
  slide_title <$> slides doc.

(** The tables placed on a slide, in the order they were added. *)
Definition slide_tables (s : Slide) : list Table :=
  omap (λ x, match x with GraphicFrame _ tbl => Some tbl | _ => None end) (shapes s).

(** The tables of slide number [n], counted from 1 as the scripts do. *)
Definition tables_of_slide (doc : Document) (n : nat) : list Table :=
  match slides doc !! pred n with
  | Some s => slide_tables s
  | None => []
  end.

Definition row_count (tbl : Table) : nat := List.length (table_rows tbl).
Definition column_count (tbl : Table) : nat := List.length (column_widths tbl).

Definition row_texts (row : list Cell) : list string :=
  (λ c, frame_text (cell_frame c)) <$> row.

(** The texts of the cells of the first row. *)
Definition header_texts (tbl : Table) : list string :=
  match table_rows tbl with
  | row :: _ => row_texts row
  | [] => []
  end.

(** Every row holds one cell per column. *)
Definition rectangular (tbl : Table) : Prop :=
  Forall (λ row, List.length row = column_count tbl) (table_rows tbl).

(** A computation that leaves the page dimensions as it found them,
    whatever document it starts from. *)
Definition keeps_page {A : Type} (m : D A) : Prop :=
  ∀ doc a doc', m doc = Ok (a, doc') →
    slide_width doc' = slide_width doc ∧ slide_height doc' = slide_height doc.

End Deck.

(** ** The two script variants side by side *)

Inductive Variant : Type := final | improved.

Definition deck (v : Variant) : Pptx.D unit :=
  match v with
  | final => Final.deck
  | improved => Improved.deck
  end.

Definition page_setup (v : Variant) : Pptx.D unit :=
  match v with
  | final => Final.page_setup
  | improved => Improved.page_setup
  end.

Definition slide_sections (v : Variant) : list (Pptx.D unit) :=
  match v with
  | final => Final.slide_sections
  | improved => Improved.slide_sections
  end.

Definition output_file (v : Variant) : string :=
  match v with
  | final => Final.output_file
  | improved => Improved.output_file
  end.

Definition create_presentation (v : Variant) : Os.Runtime -> Os.M unit :=
  match v with
  | final => Final.create_presentation
  | improved => Improved.create_presentation
  end.

(** The [print] calls of each script, top to bottom. *)
Definition confirmations (v : Variant) : list string :=
  match v with
  | final =>
      [ "✅ Communication-focused PowerPoint created successfully!";
        "📁 File saved as: GitHub_Workflow_Communication_First.pptx";
        "💬 Emphasizes Phase 1: Communication improvement";
        "🎯 Properly sized for full content visibility" ]
  | improved =>
      [ "✅ Improved PowerPoint presentation created successfully!";
        "📁 File saved as: GitHub_Workflow_Best_Practices_Improved.pptx";
        "🎯 Optimized for better visibility and content fitting" ]
  end.

(** The slide titles of each script, top to bottom. *)
Definition script_titles (v : Variant) : list string :=
  match v with
  | final =>
      [ "🚀 GitHub Developer Workflow";
        "📋 Communication-First Agenda";
        "💬 Communication Challenges";
        "💬 Phase 1: Communication First";
        "📝 Phase 1: Templates & Standards";
        "⚡ Phase 1 Quick Wins (Week 1)";
        "📋 Better Issue Communication";
        "📅 Phase 1: 2-Week Implementation";
        "🚀 Phase 2: Full Methodology (Future)";
        "🎬 Start Phase 1 Today";
        "💡 Questions & Discussion";
        "🙏 Thank You!" ]
  | improved =>
      [ "🚀 GitHub Developer Workflow";
        "📋 Agenda";
        "🚨 Current Challenges";
        "🔄 From Chaos to Clarity";
        "💡 Solution Architecture";
        "⚙️ Automated Workflow";
        "🏷️ Intelligent Label Taxonomy";
        "🚀 30-Day Implementation Plan";
        "📈 Measurable Success";
        "🎬 Immediate Actions";
        "💡 Questions & Discussion";
        "🙏 Thank You!" ]
  end.

(** The document in memory once the first [k] slide sections have run. *)
Definition after_sections (v : Variant) (k : nat) : Result (unit * Pptx.Document) :=
  (page_setup v ;; Pptx.run_all (take k (slide_sections v))) Pptx.default_template.

(** The header row each script writes into its table. *)
Definition script_headers (v : Variant) : list string :=
  match v with
  | final => ["Communication Tool"; "Current State"; "Phase 1 Improvement"]
  | improved => ["Component"; "Impact"; "Effort"; "Timeline"]
  end.

(** The document each script has in memory when it reaches [prs.save],
    starting from the bundled template. *)
Definition built (v : Variant) : Pptx.Document :=
  match deck v Pptx.default_template with
  | Ok (_, prs) => prs
  | Raise _ => Pptx.default_template
  end.

(** A run fails with [e] when building the document raises [e], or when the
    document is built and the system refuses the write with [e]. *)
Inductive fails (v : Variant) (rt : Os.Runtime) (w : Os.World) (e : Exn) : Prop :=
| fails_building :
    deck v (Os.bundled_template rt) = Raise e → fails v rt w e
| fails_saving prs :
    deck v (Os.bundled_template rt) = Ok (tt, prs) →
    Os.os_error w (output_file v) = Some e → fails v rt w e.

(** What a run leaves behind, case by case. *)
Definition outcome (v : Variant) (rt : Os.Runtime) (w : Os.World) : Result unit * Os.World :=
  match deck v (Os.bundled_template rt) with
  | Raise e => (Raise e, w)
  | Ok (_, prs) =>
      match Os.disk w (output_file v) with
      | Os.Refused e =>
          (Raise e,
           Os.mkWorld (Os.files w) (Os.disk w) (Os.console w) (Os.clock w)
             (Os.events w ++ [Os.EvSave (output_file v)]))
      | Os.Torn e partial =>
          (Raise e,
           Os.mkWorld (<[output_file v := partial]> (Os.files w)) (Os.disk w) (Os.console w)
             (Os.later (Os.clock w)) (Os.events w ++ [Os.EvSave (output_file v)]))
      | Os.Accepted =>
          (match Os.refusal (Os.console w) (confirmations v) with
           | Some e => Raise e
           | None => Ok tt
           end,
           Os.mkWorld (<[output_file v := Os.serialize rt prs (Os.now w)]> (Os.files w))
             (Os.disk w) (Os.console w) (Os.later (Os.clock w))
             (Os.events w ++ Os.EvSave (output_file v)
                :: (Os.EvPrint <$> Os.printed (Os.console w) (confirmations v))))
      end
  end.


(** Worlds and runtimes to run the scripts in. *)
Definition no_error : string -> Os.Write := λ _, Os.Accepted.
Definition permission_denied : string -> Os.Write := λ _, Os.Refused (OSError 13).
Definition disk_full : string -> Os.Write := λ _, Os.Torn (OSError 28) [].


(** A standard output that takes every line, and one whose encoding is
    ASCII. *)
Definition utf8_console : string -> option Exn := λ _, None.

(** A clock that moves on by one at each reading. *)
Definition ticking : nat -> Z := λ n, 1700000000 + Z.of_nat n.

Definition empty_dir : Os.World := Os.mkWorld ∅ no_error utf8_console ticking [].
Definition locked_dir : Os.World := Os.mkWorld ∅ permission_denied utf8_console ticking [].

Definition stale (v : Variant) : Os.World :=
  Os.mkWorld {[ output_file v := [Byte.x00] ]} no_error utf8_console ticking
    [Os.EvPrint "earlier output"].

Definition full_disk (v : Variant) : Os.World :=
  Os.mkWorld {[ output_file v := [Byte.x00] ]} disk_full utf8_console ticking [].

(** A serializer that writes one byte per slide and then a byte for the
    time, and one that writes the slides only. *)
Definition toy_serializer (doc : Pptx.Document) (t : Z) : list Byte.byte :=
  replicate (List.length (Pptx.slides doc)) Byte.x01
  ++ [if Z.even t then Byte.x00 else Byte.x02].


(** A template without layouts. *)
Definition bare_template : Pptx.Document := Pptx.mkDocument 9144000 6858000 [] [].

(** ** Slide-local effects *)

Module SlideFrame.
Import Pptx.

(** References that point into slide [s]. *)
Definition shape_on (s : SlideRef) (obj : PyShape) : Prop :=
  match obj with
  | Some sh => sh.1 = s
  | None => True
  end.

Definition frame_on (s : SlideRef) (f : FrameRef) : Prop :=
  match f with
  | ShapeFrame sh => sh.1 = s
  | CellFrame c => c.1.1.1 = s
  end.

Definition par_on (s : SlideRef) (p : ParRef) : Prop := frame_on s p.1.
Definition cell_on (s : SlideRef) (c : CellRef) : Prop := c.1.1.1 = s.
Definition table_on (s : SlideRef) (t : ShapeRef) : Prop := t.1 = s.

(** [doc'] differs from [doc] at most in the shapes of slide [s]. *)
Definition same_but_slide (s : SlideRef) (doc doc' : Document) : Prop :=
  slide_width doc' = slide_width doc
  ∧ slide_height doc' = slide_height doc
  ∧ slide_layouts doc' = slide_layouts doc
  ∧ List.length (slides doc') = List.length (slides doc)
  ∧ (∀ i, i ≠ s → slides doc' !! i = slides doc !! i)
  ∧ slide_layout <$> (slides doc' !! s) = slide_layout <$> (slides doc !! s).

(** A computation that, when it returns, has changed at most the shapes of
    slide [s] and returns a value satisfying [Q]. *)
Definition edits {A : Type} (s : SlideRef) (Q : A → Prop) (m : D A) : Prop :=
  ∀ doc a doc', m doc = Ok (a, doc') → same_but_slide s doc doc' ∧ Q a.

(** A computation that, when it returns, has appended one slide made from
    layout number [i] and changed nothing else. *)
Definition appends_slide (i : nat) (m : D unit) : Prop :=
  ∀ doc doc', m doc = Ok (tt, doc') →
    ∃ layout sl,
      slide_layouts doc !! i = Some layout
      ∧ slide_layout sl = layout
      ∧ slides doc' = slides doc ++ [sl]
      ∧ slide_layouts doc' = slide_layouts doc
      ∧ slide_width doc' = slide_width doc
      ∧ slide_height doc' = slide_height doc.

End SlideFrame.

(** The layout number each slide section asks for. *)
Definition section_layouts : list nat := [0; 1; 1; 1; 1; 1; 1; 1; 1; 1; 1; 0]%nat.

(** ** A slide seen through the placeholders the scripts use *)

Module Sim.
Import Pptx.

(** Where the shapes of a small slide sit in a big one: the small slide's
    leading placeholders at the positions [kept], every later shape behind
    the [inherited] placeholders of the big slide. *)
Record Places : Type := mkPlaces { kept : list nat; inherited : nat }.

Definition place (w : Places) (j : nat) : nat :=
  match kept w !! j with
  | Some p => p
  | None => (inherited w + (j - List.length (kept w)))%nat
  end.

Definition places_ok (w : Places) : Prop :=
  NoDup (kept w) ∧ Forall (λ p, p < inherited w)%nat (kept w).

(** The big slide [sl] holds the shapes of the small slide [sl'] at their
    places, both find placeholders 0 and 1 at matching places, and the big
    slide starts with its inherited placeholders. *)
Definition slide_sim (w : Places) (sl sl' : Slide) : Prop :=
  places_ok w
  ∧ (List.length (shapes sl) + List.length (kept w)
     = inherited w + List.length (shapes sl'))%nat
  ∧ (List.length (kept w) ≤ List.length (shapes sl'))%nat
  ∧ (∀ j, shapes sl !! place w j = shapes sl' !! j)
  ∧ (∀ idx, (idx ≤ 1)%nat →
       find_placeholder idx 0 (shapes sl)
       = place w <$> find_placeholder idx 0 (shapes sl'))
  ∧ (∀ p, (p < inherited w)%nat →
       ∃ x, shapes sl !! p = Some x ∧ placeholder_idx x ≠ None).

(** Slide [s] of [doc] is seen as slide [s'] of [doc']. *)
Definition doc_sim (w : Places) (s s' : SlideRef) (doc doc' : Document) : Prop :=
  ∃ sl sl', slides doc !! s = Some sl ∧ slides doc' !! s' = Some sl' ∧ slide_sim w sl sl'.

(** References that denote the same thing on both sides. *)
Definition shape_rel (w : Places) (s s' : SlideRef) (sh sh' : ShapeRef) : Prop :=
  sh.1 = s ∧ sh'.1 = s' ∧ sh.2 = place w sh'.2.

Definition pyshape_rel (w : Places) (s s' : SlideRef) (obj obj' : PyShape) : Prop :=
  match obj, obj' with
  | Some sh, Some sh' => shape_rel w s s' sh sh'
  | None, None => True
  | _, _ => False
  end.

Definition cell_rel (w : Places) (s s' : SlideRef) (c c' : CellRef) : Prop :=
  shape_rel w s s' c.1.1 c'.1.1 ∧ c.1.2 = c'.1.2 ∧ c.2 = c'.2.

Definition frame_rel (w : Places) (s s' : SlideRef) (f f' : FrameRef) : Prop :=
  match f, f' with
  | ShapeFrame sh, ShapeFrame sh' => shape_rel w s s' sh sh'
  | CellFrame c, CellFrame c' => cell_rel w s s' c c'
  | _, _ => False
  end.

Definition par_rel (w : Places) (s s' : SlideRef) (p p' : ParRef) : Prop :=
  frame_rel w s s' p.1 p'.1 ∧ p.2 = p'.2.

(** Two computations that, started on matching slides, raise the same
    exception or return related values on matching slides. *)
Definition sim {A B : Type} (w : Places) (s s' : SlideRef) (Q : A → B → Prop)
    (m : D A) (m' : D B) : Prop :=
  ∀ doc doc', doc_sim w s s' doc doc' →
    match m doc, m' doc' with
    | Ok (a, doc1), Ok (b, doc1') => Q a b ∧ doc_sim w s s' doc1 doc1'
    | Raise e, Raise e' => e = e'
    | _, _ => False
    end.

(** [x = shapes[sh]; shapes[sh] = f(x)], or the exception [f] answers. *)
Definition update_shape (sh : ShapeRef) (f : Shape → Result Shape) : D unit :=
  x ← get_shape sh;
  match f x with
  | Ok y => put_shape sh y
  | Raise e => raise e
  end.

(** The first placeholder numbered [idx] of a layout: its position and type. *)
Fixpoint first_ph (idx pos : nat) (phs : list (nat * PlaceholderType))
  : option (nat * PlaceholderType) :=
  match phs with
  | [] => None
  | ph :: rest =>
      if decide (ph.1 = idx) then Some (pos, ph.2) else first_ph idx (S pos) rest
  end.

(** A layout cut down to its first placeholder 0 and its first placeholder
    1, which is all the scripts look up. *)
Definition essential (layout : SlideLayout) : SlideLayout :=
  mkLayout (layout_name layout)
    (option_list ((λ r, (0%nat, r.2)) <$> first_ph 0 0 (layout_placeholders layout))
     ++ option_list ((λ r, (1%nat, r.2)) <$> first_ph 1 0 (layout_placeholders layout))).

Definition layout_places (layout : SlideLayout) : Places :=
  mkPlaces
    (option_list (fst <$> first_ph 0 0 (layout_placeholders layout))
     ++ option_list (fst <$> first_ph 1 0 (layout_placeholders layout)))
    (List.length (layout_placeholders layout)).

(** The slide [add_slide] makes from a layout. *)
Definition fresh_slide (layout : SlideLayout) : Slide :=
  mkSlide layout ((λ ph, Placeholder ph.1 ph.2 new_text_frame) <$> layout_placeholders layout).

(** A template cut down to the essentials of its layouts 0 and 1, without
    slides. *)
Definition essential_template (doc : Document) : Document :=
  mkDocument (slide_width doc) (slide_height doc)
    (essential <$> take 2 (slide_layouts doc)) [].

(** Two runs of a slide section on documents whose layout [i] agrees up to
    essentials: both raise the same exception, or both return and their
    last slides match. *)
Definition section_sim (i : nat) (m : D unit) : Prop :=
  ∀ doc doc',
    slide_layouts doc' !! i = essential <$> (slide_layouts doc !! i) →
    match m doc, m doc' with
    | Ok (_, doc1), Ok (_, doc1') =>
        ∃ w sl sl', last (slides doc1) = Some sl ∧ last (slides doc1') = Some sl'
                    ∧ slide_sim w sl sl'
    | Raise e, Raise e' => e = e'
    | _, _ => False
    end.

End Sim.

(** A slide section that appends one slide from layout 0 or 1 and behaves
    alike on templates that agree up to essentials. *)
Definition section_ok (i : nat) (m : Pptx.D unit) : Prop :=
  (i ≤ 1)%nat ∧ SlideFrame.appends_slide i m ∧ Sim.section_sim i m.

(** The documents agree, up to essentials, on layouts 0 and 1. *)
Definition layouts_agree (doc doc' : Pptx.Document) : Prop :=
  ∀ i, (i ≤ 1)%nat →
    Pptx.slide_layouts doc' !! i = Sim.essential <$> (Pptx.slide_layouts doc !! i).

(** The exception a result carries, if any. *)
Definition raised {A : Type} (r : Result A) : option Exn :=
  match r with
  | Ok _ => None
  | Raise e => Some e
  end.

(** What a layout lacks for the scripts: without placeholder 0 a slide has
    no title and assigning its text fails; without placeholder 1 the lookup
    [placeholders[1]] fails. *)
Definition layout_defect (layout : Pptx.SlideLayout) : option Exn :=
  if decide (0%nat ∈ (Pptx.layout_placeholders layout).*1) then
    if decide (1%nat ∈ (Pptx.layout_placeholders layout).*1) then None
    else Some KeyError
  else Some AttributeError.

(** What a template lacks for the scripts, in the order they meet it:
    layout 0 is needed by slide 1, layout 1 by slide 2. *)
Definition template_defect (doc : Pptx.Document) : option Exn :=
  match Pptx.slide_layouts doc !! 0%nat with
  | None => Some IndexError
  | Some title_layout =>
      match layout_defect title_layout with
      | Some e => Some e
      | None =>
          match Pptx.slide_layouts doc !! 1%nat with
          | None => Some IndexError
          | Some content_layout => layout_defect content_layout
          end
      end
  end.

(** ** What the scripts write on a slide *)

Module Content.
Import Pptx.

(** The text frame of the first placeholder numbered [idx]. *)
Definition placeholder_frame (idx : nat) (sl : Slide) : option TextFrame :=
  pos ← find_placeholder idx 0 (shapes sl);
  x ← shapes sl !! pos;
  Deck.shape_frame x.

(** The shapes that are no placeholders: text boxes and tables, in the
    order they were added. *)
Definition added_shapes (sl : Slide) : list Shape :=
  filter (λ x, placeholder_idx x = None) (shapes sl).

(** Everything the scripts put on a slide: title, body, added shapes. *)
Definition written (sl : Slide) : option TextFrame * option TextFrame * list Shape :=
  (placeholder_frame 0 sl, placeholder_frame 1 sl, added_shapes sl).

Definition tables_among (xs : list Shape) : list Table :=
  omap (λ x, match x with GraphicFrame _ tbl => Some tbl | _ => None end) xs.

End Content.

(** ** Geometry of what the scripts place *)

Module Geometry.
Import Pptx.

Definition shape_box (x : Shape) : option Box :=
  match x with
  | TextBox geom _ | GraphicFrame geom _ => Some geom
  | Placeholder _ _ _ => None
  end.

Definition inside_page (width height : Length) (geom : Box) : Prop :=
  0 ≤ box_left geom ∧ 0 ≤ box_top geom
  ∧ box_left geom + box_width geom ≤ width
  ∧ box_top geom + box_height geom ≤ height.

(** Each box ends before the next one of the same slide begins. *)
Fixpoint side_by_side (boxes : list Box) : Prop :=
  match boxes with
  | a :: (b :: _) as rest => box_left a + box_width a ≤ box_left b ∧ side_by_side rest
  | _ => True
  end.

(** A table's columns fill its frame exactly. *)
Definition columns_fill_frame (x : Shape) : Prop :=
  match x with
  | GraphicFrame geom tbl => foldr Z.add 0 (column_widths tbl) = box_width geom
  | _ => True
  end.

(** The added shapes of one slide lie inside the page, side by side, and
    the tables among them have columns that fill their frames. *)
Definition well_placed (width height : Length) (added : list Shape) : Prop :=
  Forall (inside_page width height) (omap shape_box added)
  ∧ side_by_side (omap shape_box added)
  ∧ Forall columns_fill_frame added.

#[global] Instance inside_page_dec width height geom :
  Decision (inside_page width height geom).
Proof. unfold inside_page. apply _. Defined.

#[global] Instance side_by_side_dec boxes : Decision (side_by_side boxes).
Proof.
  induction boxes as [|a rest IH]; [left; exact I|].
  destruct rest as [|b rest]; [left; exact I|].
  cbn [side_by_side]. apply _.
Defined.

#[global] Instance columns_fill_frame_dec x : Decision (columns_fill_frame x).
Proof. destruct x; cbn; apply _. Defined.

#[global] Instance well_placed_dec width height added :
  Decision (well_placed width height added).
Proof. unfold well_placed. apply _. Defined.

End Geometry.

(** Templates to run the scripts on. *)

(** A template that already holds a slide and whose layouts carry further
    placeholders, in another order than the bundled template's. *)
Definition crowded_template : Pptx.Document :=
  Pptx.mkDocument 9144000 5143500
    [ Pptx.mkLayout "Cover"
        [(13, Pptx.PH_PICTURE); (1, Pptx.PH_SUBTITLE); (0, Pptx.PH_CENTER_TITLE);
         (1, Pptx.PH_BODY)];
      Pptx.mkLayout "Body"
        [(10, Pptx.PH_BODY); (0, Pptx.PH_TITLE); (14, Pptx.PH_OBJECT); (1, Pptx.PH_OBJECT)] ]%nat
    [ Pptx.mkSlide (Pptx.mkLayout "Cover" []) [] ].

(** A template whose only layout has a title and nothing else. *)
Definition title_only_template : Pptx.Document :=
  Pptx.mkDocument 9144000 6858000 [Pptx.mkLayout "Title Only" [(0, Pptx.PH_TITLE)]]%nat [].

(** * Properties *)

Section Monad_laws.
Import Pptx.

Lemma bind_inv {A B : Type} (m : D A) (k : A -> D B) doc b doc'' :
  (m ≫= k) doc = Ok (b, doc'') →
  ∃ a doc', m doc = Ok (a, doc') ∧ k a doc' = Ok (b, doc'').
Proof.
  unfold mbind, D_bind. destruct (m doc) as [[a doc']|e]; [eauto | discriminate].
Qed.

End Monad_laws.

(** ** Page dimensions are a frame of everything but the page setup *)

Section Page_frame.
Import Pptx Deck.

Lemma keeps_page_ret {A : Type} (a : A) : keeps_page (mret a : D A).
Proof. intros doc x doc' H. unfold mret, D_ret in H. by simplify_eq. Qed.

Lemma keeps_page_raise {A : Type} (e : Exn) : keeps_page (raise e : D A).
Proof. intros doc x doc' H. discriminate H. Qed.

Lemma keeps_page_get_doc : keeps_page get_doc.
Proof. intros doc x doc' H. unfold get_doc in H. by simplify_eq. Qed.

Lemma keeps_page_bind {A B : Type} (m : D A) (k : A -> D B) :
  keeps_page m → (∀ a, keeps_page (k a)) → keeps_page (m ≫= k).
Proof.
  intros Hm Hk doc b doc'' H.
  apply bind_inv in H as (a & doc' & H1 & H2).
  destruct (Hm _ _ _ H1) as [W1 H1'], (Hk _ _ _ _ H2) as [W2 H2'].
  split; congruence.
Qed.

Lemma keeps_page_for {A : Type} (xs : list A) (body : A -> D unit) :
  (∀ x, keeps_page (body x)) → keeps_page (for_ xs body).
Proof.
  intros Hbody. induction xs as [|x xs IH]; simpl.
  - apply keeps_page_ret.
  - apply keeps_page_bind; [apply Hbody | intros _; exact IH].
Qed.

Lemma keeps_page_run_all (stmts : list (D unit)) :
  Forall keeps_page stmts → keeps_page (run_all stmts).
Proof.
  induction 1 as [|s stmts Hs _ IH]; simpl.
  - apply keeps_page_ret.
  - apply keeps_page_bind; [exact Hs | intros _; exact IH].
Qed.

(** The two places besides the page setup where the document record is
    rebuilt copy both dimensions. *)
Lemma keeps_page_put_slide s sl : keeps_page (put_slide s sl).
Proof.
  intros doc x doc' H. unfold put_slide, get_doc, put_doc, mbind, D_bind in H.
  by simplify_eq.
Qed.

Lemma keeps_page_add_slide layout : keeps_page (add_slide layout).
Proof.
  intros doc x doc' H.
  unfold add_slide, get_doc, put_doc, mbind, D_bind, mret, D_ret in H.
  by simplify_eq.
Qed.

End Page_frame.

Create HintDb page.
#[local] Hint Resolve keeps_page_ret keeps_page_raise keeps_page_get_doc
  keeps_page_put_slide keeps_page_add_slide : page.

(** One step of a frame proof: split a bind, enter a loop body, or case on
    what a statement inspects. *)
Ltac keeps_page_step :=
  lazymatch goal with
  | |- Deck.keeps_page (Pptx.for_ _ _) => apply keeps_page_for; intros ?
  | |- Deck.keeps_page (mbind _ _) => apply keeps_page_bind; [| intros ?]
  | |- Deck.keeps_page (match ?x with _ => _ end) => destruct x
  | |- Deck.keeps_page _ => solve [auto with page]
  end.

Ltac keeps_page := intros; repeat keeps_page_step.

Section Page_frame_api.
Import Pptx Deck.

Lemma keeps_page_deref obj : keeps_page (deref obj).
Proof. unfold deref. keeps_page. Qed.

Lemma keeps_page_get_slide s : keeps_page (get_slide s).
Proof. unfold get_slide. keeps_page. Qed.

Lemma keeps_page_get_shape sh : keeps_page (get_shape sh).
Proof. pose proof keeps_page_get_slide. unfold get_shape. keeps_page. Qed.

Lemma keeps_page_put_shape sh x : keeps_page (put_shape sh x).
Proof. pose proof keeps_page_get_slide. unfold put_shape. keeps_page. Qed.

Lemma keeps_page_get_table t : keeps_page (get_table t).
Proof. pose proof keeps_page_get_shape. unfold get_table. keeps_page. Qed.

Lemma keeps_page_put_table t tbl : keeps_page (put_table t tbl).
Proof.
  pose proof keeps_page_get_shape. pose proof keeps_page_put_shape.
  unfold put_table. keeps_page.
Qed.

Lemma keeps_page_get_cell c : keeps_page (get_cell c).
Proof. pose proof keeps_page_get_table. unfold get_cell. keeps_page. Qed.

Lemma keeps_page_put_cell c x : keeps_page (put_cell c x).
Proof.
  pose proof keeps_page_get_table. pose proof keeps_page_put_table.
  unfold put_cell. keeps_page.
Qed.

Lemma keeps_page_get_frame f : keeps_page (get_frame f).
Proof.
  pose proof keeps_page_get_shape. pose proof keeps_page_get_cell.
  unfold get_frame. keeps_page.
Qed.

Lemma keeps_page_put_frame f tf : keeps_page (put_frame f tf).
Proof.
  pose proof keeps_page_get_shape. pose proof keeps_page_put_shape.
  pose proof keeps_page_get_cell. pose proof keeps_page_put_cell.
  unfold put_frame. keeps_page.
Qed.

Lemma keeps_page_get_par p : keeps_page (get_par p).
Proof. pose proof keeps_page_get_frame. unfold get_par. keeps_page. Qed.

Lemma keeps_page_modify_par p f : keeps_page (modify_par p f).
Proof.
  pose proof keeps_page_get_frame. pose proof keeps_page_put_frame.
  unfold modify_par. keeps_page.
Qed.

End Page_frame_api.

#[local] Hint Resolve keeps_page_deref keeps_page_get_slide keeps_page_get_shape
  keeps_page_put_shape keeps_page_get_table keeps_page_put_table keeps_page_get_cell
  keeps_page_put_cell keeps_page_get_frame keeps_page_put_frame keeps_page_get_par
  keeps_page_modify_par : page.

Section Page_frame_calls.
Import Pptx Deck.

Lemma keeps_page_slide_layouts_getitem i : keeps_page (slide_layouts_getitem i).
Proof. unfold slide_layouts_getitem. keeps_page. Qed.

Lemma keeps_page_shapes_title s : keeps_page (shapes_title s).
Proof. unfold shapes_title. keeps_page. Qed.

Lemma keeps_page_placeholders_getitem s idx : keeps_page (placeholders_getitem s idx).
Proof. unfold placeholders_getitem. keeps_page. Qed.

Lemma keeps_page_append_shape s x : keeps_page (append_shape s x).
Proof. unfold append_shape. keeps_page. Qed.

Lemma keeps_page_add_textbox s l t w h : keeps_page (add_textbox s l t w h).
Proof. apply keeps_page_append_shape. Qed.

Lemma keeps_page_add_table s r c l t w h : keeps_page (add_table s r c l t w h).
Proof. apply keeps_page_append_shape. Qed.

Lemma keeps_page_table_of obj : keeps_page (table_of obj).
Proof. unfold table_of. keeps_page. Qed.

Lemma keeps_page_text_frame obj : keeps_page (text_frame obj).
Proof. unfold text_frame. keeps_page. Qed.

Lemma keeps_page_set_frame_text f s : keeps_page (set_frame_text f s).
Proof. unfold set_frame_text. keeps_page. Qed.

Lemma keeps_page_set_text obj s : keeps_page (set_text obj s).
Proof.
  pose proof keeps_page_text_frame. pose proof keeps_page_set_frame_text.
  unfold set_text. keeps_page.
Qed.

Lemma keeps_page_paragraphs_getitem f i : keeps_page (paragraphs_getitem f i).
Proof. unfold paragraphs_getitem. keeps_page. Qed.

Lemma keeps_page_clear f : keeps_page (clear f).
Proof. unfold clear. keeps_page. Qed.

Lemma keeps_page_add_paragraph f : keeps_page (add_paragraph f).
Proof. unfold add_paragraph. keeps_page. Qed.

Lemma keeps_page_set_par_text p s : keeps_page (set_par_text p s).
Proof. apply keeps_page_modify_par. Qed.

Lemma keeps_page_set_level p n : keeps_page (set_level p n).
Proof. unfold set_level. keeps_page. Qed.

Lemma keeps_page_set_font_size p v : keeps_page (set_font_size p v).
Proof. apply keeps_page_modify_par. Qed.

Lemma keeps_page_set_font_bold p b : keeps_page (set_font_bold p b).
Proof. apply keeps_page_modify_par. Qed.

Lemma keeps_page_set_font_color_rgb p c : keeps_page (set_font_color_rgb p c).
Proof. apply keeps_page_modify_par. Qed.

Lemma keeps_page_set_space_after p v : keeps_page (set_space_after p v).
Proof. apply keeps_page_modify_par. Qed.

Lemma keeps_page_set_space_before p v : keeps_page (set_space_before p v).
Proof. apply keeps_page_modify_par. Qed.

Lemma keeps_page_set_column_width t i w : keeps_page (set_column_width t i w).
Proof. unfold set_column_width. keeps_page. Qed.

Lemma keeps_page_table_cell t r c : keeps_page (table_cell t r c).
Proof. unfold table_cell. keeps_page. Qed.

Lemma keeps_page_set_cell_text c s : keeps_page (set_cell_text c s).
Proof. apply keeps_page_set_frame_text. Qed.

Lemma keeps_page_fill_solid c : keeps_page (fill_solid c).
Proof. unfold fill_solid. keeps_page. Qed.

Lemma keeps_page_set_fill_fore_color_rgb c color :
  keeps_page (set_fill_fore_color_rgb c color).
Proof. unfold set_fill_fore_color_rgb. keeps_page. Qed.

Lemma keeps_page_first_paragraph obj : keeps_page (first_paragraph obj).
Proof.
  pose proof keeps_page_text_frame. pose proof keeps_page_paragraphs_getitem.
  unfold first_paragraph. keeps_page.
Qed.

Lemma keeps_page_cell_first_paragraph c : keeps_page (cell_first_paragraph c).
Proof. apply keeps_page_paragraphs_getitem. Qed.

End Page_frame_calls.

#[local] Hint Resolve keeps_page_slide_layouts_getitem keeps_page_shapes_title
  keeps_page_placeholders_getitem keeps_page_add_textbox keeps_page_add_table
  keeps_page_table_of keeps_page_text_frame keeps_page_set_text
  keeps_page_paragraphs_getitem keeps_page_clear keeps_page_add_paragraph
  keeps_page_set_par_text keeps_page_set_level keeps_page_set_font_size
  keeps_page_set_font_bold keeps_page_set_font_color_rgb keeps_page_set_space_after
  keeps_page_set_space_before keeps_page_set_column_width keeps_page_table_cell
  keeps_page_set_cell_text keeps_page_fill_solid keeps_page_set_fill_fore_color_rgb
  keeps_page_first_paragraph keeps_page_cell_first_paragraph : page.

Section Page_frame_sections.
Import Pptx Deck.

Lemma final_sections_keep_page : Forall keeps_page Final.slide_sections.
Proof.
  unfold Final.slide_sections.
  repeat apply Forall_cons_2; try apply Forall_nil_2.
  all: lazymatch goal with |- keeps_page ?s => unfold s end; keeps_page.
Qed.

Lemma improved_sections_keep_page : Forall keeps_page Improved.slide_sections.
Proof.
  unfold Improved.slide_sections.
  repeat apply Forall_cons_2; try apply Forall_nil_2.
  all: lazymatch goal with |- keeps_page ?s => unfold s end; keeps_page.
Qed.

End Page_frame_sections.

(** ** Running the scripts *)

Lemma deck_builds (v : Variant) : deck v Pptx.default_template = Ok (tt, built v).
Proof. destruct v; vm_compute; reflexivity. Qed.

Lemma os_error_accepted (w : Os.World) (path : string) :
  Os.os_error w path = None ↔ Os.disk w path = Os.Accepted.
Proof. unfold Os.os_error. destruct (Os.disk w path); split; congruence. Qed.

Lemma refusal_printed (err : string -> option Exn) (lines : list string) :
  Os.refusal err lines = None ↔ Os.printed err lines = lines.
Proof.
  induction lines as [|line rest IH]; cbn; [done|].
  destruct (err line); [split; discriminate|].
  rewrite IH. split; [by intros -> | by intros [=]].
Qed.

Lemma printed_accepted (err : string -> option Exn) (lines : list string) :
  Forall (λ line, err line = None) lines → Os.printed err lines = lines.
Proof. induction 1 as [|line rest Hline _ IH]; cbn; [done|]. by rewrite Hline, IH. Qed.


Lemma create_presentation_outcome (v : Variant) (rt : Os.Runtime) (w : Os.World) :
  create_presentation v rt w = outcome v rt w.
Proof.
  destruct v;
    unfold create_presentation, outcome, Final.create_presentation,
      Improved.create_presentation, mbind, Os.M_bind, Os.Presentation, Os.save, Os.print;
    cbn [deck output_file confirmations Final.output_file Improved.output_file].
  - destruct (Final.deck (Os.bundled_template rt)) as [[[] prs]|e]; [|reflexivity].
    destruct (Os.disk w _) as [|e|e partial]; [|reflexivity..].
    cbn [Os.files Os.disk Os.console Os.clock Os.events Os.printed Os.refusal].
    repeat lazymatch goal with
           | |- context [Os.console w ?line] =>
               destruct (Os.console w line);
               cbn [Os.files Os.disk Os.console Os.clock Os.events fmap list_fmap];
               [by rewrite <- ?app_assoc|]
           end.
    by rewrite <- !app_assoc.
  - destruct (Improved.deck (Os.bundled_template rt)) as [[[] prs]|e]; [|reflexivity].
    destruct (Os.disk w _) as [|e|e partial]; [|reflexivity..].
    cbn [Os.files Os.disk Os.console Os.clock Os.events Os.printed Os.refusal].
    repeat lazymatch goal with
           | |- context [Os.console w ?line] =>
               destruct (Os.console w line);
               cbn [Os.files Os.disk Os.console Os.clock Os.events fmap list_fmap];
               [by rewrite <- ?app_assoc|]
           end.
    by rewrite <- !app_assoc.
Qed.

Lemma outcome_built (v : Variant) ser (w : Os.World) :
  outcome v (Os.python_pptx ser) w =
  match Os.disk w (output_file v) with
  | Os.Refused e =>
      (Raise e,
       Os.mkWorld (Os.files w) (Os.disk w) (Os.console w) (Os.clock w)
         (Os.events w ++ [Os.EvSave (output_file v)]))
  | Os.Torn e partial =>
      (Raise e,
       Os.mkWorld (<[output_file v := partial]> (Os.files w)) (Os.disk w) (Os.console w)
         (Os.later (Os.clock w)) (Os.events w ++ [Os.EvSave (output_file v)]))
  | Os.Accepted =>
      (match Os.refusal (Os.console w) (confirmations v) with
       | Some e => Raise e
       | None => Ok tt
       end,
       Os.mkWorld (<[output_file v := ser (built v) (Os.now w)]> (Os.files w))
         (Os.disk w) (Os.console w) (Os.later (Os.clock w))
         (Os.events w ++ Os.EvSave (output_file v)
            :: (Os.EvPrint <$> Os.printed (Os.console w) (confirmations v))))
  end.
Proof. unfold outcome. cbn [Os.python_pptx Os.bundled_template]. by rewrite deck_builds. Qed.

Lemma stdout_app (evs evs' : list Os.Event) :
  Os.stdout (evs ++ evs') = Os.stdout evs ++ Os.stdout evs'.
Proof. apply omap_app. Qed.

Lemma stdout_prints (lines : list string) : Os.stdout (Os.EvPrint <$> lines) = lines.
Proof. induction lines as [|l lines IH]; [done|]. cbn. by f_equal. Qed.

Lemma writes_app (evs evs' : list Os.Event) :
  Os.writes (evs ++ evs') = Os.writes evs ++ Os.writes evs'.
Proof. apply omap_app. Qed.

Lemma writes_prints (lines : list string) : Os.writes (Os.EvPrint <$> lines) = [].
Proof. induction lines as [|l lines IH]; [done|]. by cbn. Qed.

(** What a run adds to standard output and to the writes attempted. *)
Lemma outcome_stdout (v : Variant) (rt : Os.Runtime) (w : Os.World) :
  Os.stdout (Os.events (outcome v rt w).2) =
    Os.stdout (Os.events w) ++
    match deck v (Os.bundled_template rt), Os.disk w (output_file v) with
    | Ok _, Os.Accepted => Os.printed (Os.console w) (confirmations v)
    | _, _ => []
    end.
Proof.
  unfold outcome. destruct (deck v (Os.bundled_template rt)) as [[[] prs]|e].
  - destruct (Os.disk w (output_file v)); cbn [snd Os.events]; rewrite stdout_app; f_equal.
    cbn [Os.stdout omap list_omap]. apply stdout_prints.
  - by rewrite app_nil_r.
Qed.

Lemma outcome_writes (v : Variant) (rt : Os.Runtime) (w : Os.World) :
  Os.writes (Os.events (outcome v rt w).2) =
    Os.writes (Os.events w) ++
    match deck v (Os.bundled_template rt) with
    | Ok _ => [output_file v]
    | Raise _ => []
    end.
Proof.
  unfold outcome. destruct (deck v (Os.bundled_template rt)) as [[[] prs]|e].
  - destruct (Os.disk w (output_file v)); cbn [snd Os.events]; rewrite writes_app; f_equal.
    cbn [Os.writes omap list_omap]. f_equal. apply writes_prints.
  - by rewrite app_nil_r.
Qed.

(** ** Slides and their order *)

(** C1. For each script variant, the document that [create_presentation]
    builds and saves holds exactly 12 slides, titled as the script titles
    them and in the script's order; the first [k] slide sections leave
    exactly the first [k] of these slides, so each section appends the next
    one.  It is this document whose package an accepted write leaves under
    the output name; a refused write leaves what was there, a torn one what
    it managed to write. *)
Theorem twelve_slides_in_script_order (v : Variant) ser (w : Os.World) :
  ∃ prs,
    Os.Presentation (Os.python_pptx ser) (deck v) w = (Ok prs, w)
    ∧ List.length (Pptx.slides prs) = 12%nat
    ∧ Deck.slide_titles prs = Some <$> script_titles v
    ∧ Forall (λ k, ∃ doc, after_sections v k = Ok (tt, doc)
                          ∧ Pptx.slides doc = take k (Pptx.slides prs)) (seq 0 13)
    ∧ Os.files (create_presentation v (Os.python_pptx ser) w).2 !! output_file v =
        match Os.disk w (output_file v) with
        | Os.Accepted => Some (ser prs (Os.now w))
        | Os.Refused _ => Os.files w !! output_file v
        | Os.Torn _ partial => Some partial
        end.
Proof.
  exists (built v). split_and!.
  - unfold Os.Presentation. cbn [Os.python_pptx Os.bundled_template].
    by rewrite deck_builds.
  - destruct v; vm_compute; reflexivity.
  - destruct v; vm_compute; reflexivity.
  - cbn [seq]. repeat apply Forall_cons_2; try apply Forall_nil_2.
    all: destruct v; eexists; split; vm_compute; reflexivity.
  - rewrite create_presentation_outcome, outcome_built.
    destruct (Os.disk w (output_file v)); cbn [snd Os.files];
      [apply lookup_insert_eq | done | apply lookup_insert_eq].
Qed.

(** ** The table of slide 5 *)

Lemma slide_5_rows (v : Variant) :
  Deck.row_count <$> Deck.tables_of_slide (built v) 5 =
  [match v with final => 5%nat | improved => 6%nat end].
Proof. destruct v; vm_compute; reflexivity. Qed.

(** C2, as claimed, fails: the improved script's table on slide 5 does not
    have 5 rows, so it is not true of every variant that the slide 5 table
    has exactly 5 rows, 3 to 4 columns and the script's header row. *)
Lemma improved_table_is_not_five_rows :
  ¬ (∀ v tbl, tbl ∈ Deck.tables_of_slide (built v) 5 →
       Deck.row_count tbl = 5%nat
       ∧ (3 ≤ Deck.column_count tbl ≤ 4)%nat
       ∧ Deck.header_texts tbl = script_headers v).
Proof.
  intros claim.
  pose proof (slide_5_rows improved) as Hrows.
  apply fmap_cons_inv in Hrows as (tbl & rest & Hsix & _ & Htables).
  destruct (claim improved tbl) as [Hfive _].
  { rewrite Htables. apply list_elem_of_here. }
  congruence.
Qed.

(** C2, amended. Slide 5 of each script carries one table, built on that
    script's document: 5 rows by 3 columns in the final script, 6 rows by 4
    columns in the improved script, every row as long as the column list,
    and the first row reads the script's fixed headers. *)
Theorem slide_5_table (v : Variant) :
  ∃ prs tbl,
    deck v Pptx.default_template = Ok (tt, prs)
    ∧ Deck.tables_of_slide prs 5 = [tbl]
    ∧ Deck.row_count tbl = match v with final => 5%nat | improved => 6%nat end
    ∧ Deck.column_count tbl = match v with final => 3%nat | improved => 4%nat end
    ∧ Deck.rectangular tbl
    ∧ Deck.header_texts tbl =
        match v with
        | final => ["Communication Tool"; "Current State"; "Phase 1 Improvement"]
        | improved => ["Component"; "Impact"; "Effort"; "Timeline"]
        end.
Proof.
  exists (built v).
  destruct v; eexists; split_and!;
    try (vm_compute; reflexivity);
    unfold Deck.rectangular; vm_compute; repeat constructor.
Qed.

(** ** The output file and the confirmation lines *)

(** C3, as claimed, fails: run in an empty directory that accepts the
    write, the final script prints four lines, not three. *)
Lemma final_prints_four_lines :
  Os.files empty_dir !! output_file final = None
  ∧ Os.os_error empty_dir (output_file final) = None
  ∧ Os.stdout (Os.events (create_presentation final (Os.python_pptx toy_serializer) empty_dir).2)
    = [ "✅ Communication-focused PowerPoint created successfully!";
        "📁 File saved as: GitHub_Workflow_Communication_First.pptx";
        "💬 Emphasizes Phase 1: Communication improvement";
        "🎯 Properly sized for full content visibility" ]
  ∧ List.length
      (Os.stdout (Os.events (create_presentation final (Os.python_pptx toy_serializer) empty_dir).2))
    ≠ 3%nat.
Proof.
  rewrite create_presentation_outcome, outcome_stdout.
  cbn [Os.python_pptx Os.bundled_template]. rewrite (deck_builds final).
  split_and!; [apply lookup_empty | reflexivity | reflexivity | cbn; lia].
Qed.

(** C3, amended. Started where no file of the script's output name exists,
    the write is accepted and standard output takes the confirmation
    lines, each script returns normally, leaves the serialized document
    under its fixed name and prints its fixed confirmation lines after
    whatever was printed before: four lines in the final script, three in
    the improved script. *)
Theorem fresh_run_saves_and_confirms (v : Variant) ser (w : Os.World) :
  Os.files w !! output_file v = None →
  Os.os_error w (output_file v) = None →
  Forall (λ line, Os.console w line = None) (confirmations v) →
  (create_presentation v (Os.python_pptx ser) w).1 = Ok tt
  ∧ Os.files (create_presentation v (Os.python_pptx ser) w).2 !! output_file v
    = Some (ser (built v) (Os.now w))
  ∧ Os.stdout (Os.events (create_presentation v (Os.python_pptx ser) w).2)
    = Os.stdout (Os.events w) ++ confirmations v
  ∧ List.length (confirmations v) = match v with final => 4%nat | improved => 3%nat end.
Proof.
  intros _ Hok Hlines. apply os_error_accepted in Hok.
  pose proof (printed_accepted _ _ Hlines) as Hprinted.
  rewrite create_presentation_outcome.
  split_and!.
  - rewrite outcome_built, Hok. cbn [fst].
    by apply refusal_printed in Hprinted as ->.
  - rewrite outcome_built, Hok. cbn [snd Os.files]. apply lookup_insert_eq.
  - rewrite outcome_stdout. cbn [Os.python_pptx Os.bundled_template].
    by rewrite deck_builds, Hok, Hprinted.
  - by destruct v.
Qed.

Lemma fresh_run_saves_and_confirms_witness :
  Os.files empty_dir !! output_file improved = None
  ∧ Os.os_error empty_dir (output_file improved) = None
  ∧ Forall (λ line, Os.console empty_dir line = None) (confirmations improved)
  ∧ Os.stdout (Os.events (create_presentation improved (Os.python_pptx toy_serializer) empty_dir).2)
    = Os.stdout (Os.events empty_dir) ++ confirmations improved.
Proof.
  assert (Forall (λ line, Os.console empty_dir line = None) (confirmations improved))
    as Hlines by (repeat constructor).
  split; [apply lookup_empty|]. split; [reflexivity|]. split; [exact Hlines|].
  apply (fresh_run_saves_and_confirms improved toy_serializer empty_dir);
    [apply lookup_empty | reflexivity | exact Hlines].
Defined.



(** ** Failures *)

(** C6. Whatever the installed library and the world, when building the
    document or saving it raises [e], the run ends with that same [e]: it
    never returns a value, prints nothing, and the write is attempted at
    most once. *)
Theorem failures_propagate (v : Variant) (rt : Os.Runtime) (w : Os.World) (e : Exn) :
  fails v rt w e →
  (create_presentation v rt w).1 = Raise e
  ∧ Os.stdout (Os.events (create_presentation v rt w).2) = Os.stdout (Os.events w)
  ∧ (List.length (Os.writes (Os.events (create_presentation v rt w).2))
     ≤ S (List.length (Os.writes (Os.events w))))%nat.
Proof.
  rewrite create_presentation_outcome, outcome_stdout, outcome_writes. unfold outcome.
  intros [Hbuild | prs Hbuild Hsave].
  - rewrite Hbuild, length_app. cbn [fst List.length].
    split_and!; [done | apply app_nil_r | lia].
  - rewrite Hbuild, length_app. unfold Os.os_error in Hsave.
    destruct (Os.disk w (output_file v)) as [|e'|e' partial]; simplify_eq; cbn [fst List.length];
      (split_and!; [done | apply app_nil_r | lia]).
Qed.

Lemma failures_propagate_witness :
  (fails final (Os.mkRuntime bare_template toy_serializer) empty_dir IndexError
   ∧ (create_presentation final (Os.mkRuntime bare_template toy_serializer) empty_dir).1
     = Raise IndexError)
  ∧ (fails improved (Os.python_pptx toy_serializer) locked_dir (OSError 13)
     ∧ (create_presentation improved (Os.python_pptx toy_serializer) locked_dir).1
       = Raise (OSError 13)).
Proof.
  split.
  - assert (fails final (Os.mkRuntime bare_template toy_serializer) empty_dir IndexError)
      as Hfails by (apply fails_building; vm_compute; reflexivity).
    split; [exact Hfails|].
    apply (failures_propagate final _ empty_dir IndexError Hfails).
  - assert (fails improved (Os.python_pptx toy_serializer) locked_dir (OSError 13))
      as Hfails by (apply (fails_saving _ _ _ _ (built improved));
                    [apply (deck_builds improved) | reflexivity]).
    split; [exact Hfails|].
    apply (failures_propagate improved _ locked_dir (OSError 13) Hfails).
Defined.

(** ** What a run does to the outside *)


(** ** Page dimensions and layouts *)

(** C8. In each script the page setup comes first.  Run on any document,
    whatever its page, it sets the page to 13.333 by 7.5 inches and adds no
    slide; every slide section leaves both dimensions as it finds them,
    from any document; so the page is 13.333 by 7.5 inches whenever the
    deck is built, and on the bundled template it is after each number of
    slide sections, from none to all twelve. *)
Theorem page_is_widescreen_throughout (v : Variant) :
  deck v = (page_setup v ;; Pptx.run_all (slide_sections v))
  ∧ (∀ doc, ∃ doc', page_setup v doc = Ok (tt, doc')
                    ∧ Pptx.slide_width doc' = Pptx.Inches 13.333
                    ∧ Pptx.slide_height doc' = Pptx.Inches 7.5
                    ∧ Pptx.slide_width doc' = 12191695
                    ∧ Pptx.slide_height doc' = 6858000
                    ∧ Pptx.slides doc' = Pptx.slides doc)
  ∧ Forall Deck.keeps_page (slide_sections v)
  ∧ (∀ doc prs, deck v doc = Ok (tt, prs) →
       Pptx.slide_width prs = Pptx.Inches 13.333
       ∧ Pptx.slide_height prs = Pptx.Inches 7.5)
  ∧ Forall (λ k, ∃ doc, after_sections v k = Ok (tt, doc)
                        ∧ Pptx.slide_width doc = Pptx.Inches 13.333
                        ∧ Pptx.slide_height doc = Pptx.Inches 7.5
                        ∧ List.length (Pptx.slides doc) = k) (seq 0 13).
Proof.
  assert (Forall Deck.keeps_page (slide_sections v)) as Hsections
    by (destruct v; [apply final_sections_keep_page | apply improved_sections_keep_page]).
  assert (∀ doc, page_setup v doc
                 = Ok (tt, Pptx.mkDocument (Pptx.Inches 13.333) (Pptx.Inches 7.5)
                             (Pptx.slide_layouts doc) (Pptx.slides doc))) as Hsetup
    by (by destruct v).
  split_and!.
  - by destruct v.
  - intros doc. eexists. split; [apply Hsetup|]. by split_and!.
  - exact Hsections.
  - intros doc prs Hdeck.
    assert (deck v = (page_setup v ;; Pptx.run_all (slide_sections v))) as Hsplit
      by (by destruct v).
    rewrite Hsplit in Hdeck. apply bind_inv in Hdeck as ([] & doc' & Hpage & Hrest).
    rewrite Hsetup in Hpage. simplify_eq.
    by destruct (keeps_page_run_all _ Hsections _ _ _ Hrest) as [-> ->].
  - cbn [seq]. repeat apply Forall_cons_2; try apply Forall_nil_2.
    all: destruct v; eexists; split_and!; vm_compute; reflexivity.
Qed.

(** C9. In each script's document the first and the twelfth slide come from
    the template's layout 0 and the ten slides between them from its layout
    1, a different layout. *)
Theorem title_layout_first_and_last (v : Variant) :
  ∃ prs title_layout content_layout,
    deck v Pptx.default_template = Ok (tt, prs)
    ∧ Pptx.slide_layouts prs !! 0%nat = Some title_layout
    ∧ Pptx.slide_layouts prs !! 1%nat = Some content_layout
    ∧ title_layout ≠ content_layout
    ∧ Pptx.slide_layout <$> Pptx.slides prs
      = [title_layout] ++ replicate 10 content_layout ++ [title_layout].
Proof.
  exists (built v).
  destruct v; do 2 eexists; split_and!;
    try (vm_compute; reflexivity); vm_compute; discriminate.
Qed.

(** ** Order of saving and printing *)



Section Slide_frame_rules.
Import Pptx SlideFrame.

Lemma same_but_slide_refl s doc : same_but_slide s doc doc.
Proof. by repeat split. Qed.

Lemma same_but_slide_trans s doc1 doc2 doc3 :
  same_but_slide s doc1 doc2 → same_but_slide s doc2 doc3 → same_but_slide s doc1 doc3.
Proof.
  intros (W1 & H1 & L1 & N1 & O1 & S1) (W2 & H2 & L2 & N2 & O2 & S2).
  split_and!; try congruence.
  intros i Hi. by rewrite O2, O1.
Qed.

Lemma edits_ret {A : Type} s (Q : A → Prop) (a : A) : Q a → edits s Q (mret a : D A).
Proof.
  intros HQ doc x doc' H. unfold mret, D_ret in H. simplify_eq.
  split; [apply same_but_slide_refl | done].
Qed.

Lemma edits_raise {A : Type} s (Q : A → Prop) e : edits s Q (raise e : D A).
Proof. intros doc x doc' H. discriminate H. Qed.

Lemma edits_bind {A B : Type} s (P : A → Prop) (Q : B → Prop) (m : D A) (k : A → D B) :
  edits s P m → (∀ a, P a → edits s Q (k a)) → edits s Q (m ≫= k).
Proof.
  intros Hm Hk doc b doc'' H.
  apply bind_inv in H as (a & doc' & H1 & H2).
  destruct (Hm _ _ _ H1) as [F1 Pa], (Hk _ Pa _ _ _ H2) as [F2 Qb].
  split; [by eapply same_but_slide_trans | done].
Qed.

Lemma edits_weaken {A : Type} s (P Q : A → Prop) (m : D A) :
  edits s P m → (∀ a, P a → Q a) → edits s Q m.
Proof. intros Hm HPQ doc a doc' H. destruct (Hm _ _ _ H). auto. Qed.

Lemma edits_for {A : Type} s (xs : list A) (body : A → D unit) :
  (∀ x, edits s (λ _, True) (body x)) → edits s (λ _, True) (for_ xs body).
Proof.
  intros Hbody. induction xs as [|x xs IH]; simpl.
  - by apply edits_ret.
  - eapply edits_bind; [apply Hbody | intros _ _; exact IH].
Qed.

Lemma edits_get_doc s : edits s (λ _, True) get_doc.
Proof.
  intros doc x doc' H. unfold get_doc in H. simplify_eq.
  split; [apply same_but_slide_refl | done].
Qed.

Lemma edits_get_slide s s' : edits s (λ _, True) (get_slide s').
Proof.
  intros doc x doc' H. unfold get_slide, get_doc, mbind, D_bind in H.
  destruct (slides doc !! s'); [|discriminate].
  unfold mret, D_ret in H. simplify_eq. split; [apply same_but_slide_refl | done].
Qed.

(** Overwriting a slide by one of the same layout changes that slide only. *)
Lemma put_slide_same_layout s sl0 sl doc :
  slides doc !! s = Some sl0 → slide_layout sl = slide_layout sl0 →
  ∃ doc', put_slide s sl doc = Ok (tt, doc') ∧ same_but_slide s doc doc'.
Proof.
  intros Hs Hl. eexists. split; [reflexivity|].
  unfold same_but_slide. cbn [slide_width slide_height slide_layouts slides].
  split_and!; try done.
  - apply length_insert.
  - intros i Hi. by apply list_lookup_insert_ne.
  - rewrite list_lookup_insert_eq by (by eapply lookup_lt_Some). rewrite Hs. cbn. by f_equal.
Qed.

Lemma get_slide_inv s doc sl doc' :
  get_slide s doc = Ok (sl, doc') → doc' = doc ∧ slides doc !! s = Some sl.
Proof.
  unfold get_slide, get_doc, mbind, D_bind. destruct (slides doc !! s); [|discriminate].
  unfold mret, D_ret. intros H. by simplify_eq.
Qed.

Lemma edits_put_shape s sh x : sh.1 = s → edits s (λ _, True) (put_shape sh x).
Proof.
  intros <- doc [] doc' H. unfold put_shape in H.
  apply bind_inv in H as (sl & doc1 & H1 & H2).
  apply get_slide_inv in H1 as [-> Hs].
  destruct (put_slide_same_layout sh.1 sl
              (mkSlide (slide_layout sl) (<[sh.2 := x]> (shapes sl))) doc Hs eq_refl)
    as (doc2 & Hput & Hsame).
  rewrite Hput in H2. by simplify_eq.
Qed.

Lemma edits_append_shape s x : edits s (shape_on s) (append_shape s x).
Proof.
  intros doc obj doc' H. unfold append_shape in H.
  apply bind_inv in H as (sl & doc1 & H1 & H2).
  apply get_slide_inv in H1 as [-> Hs].
  apply bind_inv in H2 as ([] & doc2 & H2 & H3).
  destruct (put_slide_same_layout s sl
              (mkSlide (slide_layout sl) (shapes sl ++ [x])) doc Hs eq_refl)
    as (doc3 & Hput & Hsame).
  rewrite Hput in H2. unfold mret, D_ret in H3. by simplify_eq.
Qed.

End Slide_frame_rules.

Create HintDb edits.
#[local] Hint Resolve edits_raise edits_get_doc edits_get_slide edits_put_shape
  edits_append_shape : edits.

Ltac edits_step :=
  lazymatch goal with
  | |- SlideFrame.edits _ _ (Pptx.for_ _ _) => apply edits_for; intros ?
  | |- SlideFrame.edits _ _ (mbind _ _) => eapply edits_bind; [| intros ? ?]
  | |- SlideFrame.edits _ _ (match ?x with _ => _ end) => destruct x
  | |- SlideFrame.edits _ _ (let _ := _ in _) => cbv zeta
  | |- SlideFrame.edits _ _ (mret _) => apply edits_ret; solve [auto | hnf; auto]
  | |- SlideFrame.edits _ _ _ => solve [eauto with edits]
  end.

Ltac edits := intros; repeat edits_step.

Section Slide_frame_api.
Import Pptx SlideFrame.

Lemma edits_deref s obj : shape_on s obj → edits s (λ sh, sh.1 = s) (deref obj).
Proof. unfold deref, shape_on. intros. destruct obj; edits. Qed.

Lemma edits_get_shape s sh : edits s (λ _, True) (get_shape sh).
Proof. unfold get_shape. edits. Qed.

Lemma edits_get_table s t : edits s (λ _, True) (get_table t).
Proof. pose proof edits_get_shape. unfold get_table. edits. Qed.

Lemma edits_put_table s t tbl : t.1 = s → edits s (λ _, True) (put_table t tbl).
Proof. pose proof edits_get_shape. unfold put_table. edits. Qed.

Lemma edits_get_cell s c : edits s (λ _, True) (get_cell c).
Proof. pose proof edits_get_table. unfold get_cell. edits. Qed.

Lemma edits_put_cell s c x : c.1.1.1 = s → edits s (λ _, True) (put_cell c x).
Proof.
  pose proof edits_get_table. pose proof edits_put_table.
  unfold put_cell. edits.
Qed.

Lemma edits_get_frame s f : edits s (λ _, True) (get_frame f).
Proof.
  pose proof edits_get_shape. pose proof edits_get_cell.
  unfold get_frame. edits.
Qed.

Lemma edits_put_frame s f tf : frame_on s f → edits s (λ _, True) (put_frame f tf).
Proof.
  pose proof edits_get_shape. pose proof edits_get_cell. pose proof edits_put_cell.
  unfold put_frame, frame_on. edits.
Qed.

Lemma edits_get_par s p : edits s (λ _, True) (get_par p).
Proof. pose proof edits_get_frame. unfold get_par. edits. Qed.

Lemma edits_modify_par s p f : par_on s p → edits s (λ _, True) (modify_par p f).
Proof.
  pose proof edits_get_frame. pose proof edits_put_frame.
  unfold modify_par, par_on. edits.
Qed.

End Slide_frame_api.

#[local] Hint Resolve edits_deref edits_get_shape edits_get_table edits_put_table
  edits_get_cell edits_put_cell edits_get_frame edits_put_frame edits_get_par
  edits_modify_par : edits.

Section Slide_frame_calls.
Import Pptx SlideFrame.

Lemma edits_shapes_title s : edits s (shape_on s) (shapes_title s).
Proof.
  unfold shapes_title. edits. apply edits_ret.
  by destruct (find_placeholder 0 0 (shapes a)).
Qed.

Lemma edits_placeholders_getitem s idx : edits s (shape_on s) (placeholders_getitem s idx).
Proof. unfold placeholders_getitem. edits. Qed.

Lemma edits_add_textbox s l t w h : edits s (shape_on s) (add_textbox s l t w h).
Proof. apply edits_append_shape. Qed.

Lemma edits_add_table s r c l t w h : edits s (shape_on s) (add_table s r c l t w h).
Proof. apply edits_append_shape. Qed.

Lemma edits_table_of s obj : shape_on s obj → edits s (table_on s) (table_of obj).
Proof. unfold table_of, table_on. edits. Qed.

Lemma edits_text_frame s obj : shape_on s obj → edits s (frame_on s) (text_frame obj).
Proof. unfold text_frame. edits. Qed.

Lemma edits_set_frame_text s f txt : frame_on s f → edits s (λ _, True) (set_frame_text f txt).
Proof. unfold set_frame_text. edits. Qed.

Lemma edits_set_text s obj txt : shape_on s obj → edits s (λ _, True) (set_text obj txt).
Proof.
  pose proof edits_text_frame. pose proof edits_set_frame_text.
  unfold set_text. edits.
Qed.

Lemma edits_paragraphs_getitem s f i :
  frame_on s f → edits s (par_on s) (paragraphs_getitem f i).
Proof. unfold paragraphs_getitem. edits. Qed.

Lemma edits_clear s f : frame_on s f → edits s (λ _, True) (clear f).
Proof. unfold clear. edits. Qed.

Lemma edits_add_paragraph s f : frame_on s f → edits s (par_on s) (add_paragraph f).
Proof. unfold add_paragraph. edits. Qed.

Lemma edits_set_par_text s p txt : par_on s p → edits s (λ _, True) (set_par_text p txt).
Proof. apply edits_modify_par. Qed.

Lemma edits_set_level s p n : par_on s p → edits s (λ _, True) (set_level p n).
Proof. unfold set_level. edits. Qed.

Lemma edits_set_font_size s p v : par_on s p → edits s (λ _, True) (set_font_size p v).
Proof. apply edits_modify_par. Qed.

Lemma edits_set_font_bold s p b : par_on s p → edits s (λ _, True) (set_font_bold p b).
Proof. apply edits_modify_par. Qed.

Lemma edits_set_font_color_rgb s p c :
  par_on s p → edits s (λ _, True) (set_font_color_rgb p c).
Proof. apply edits_modify_par. Qed.

Lemma edits_set_space_after s p v : par_on s p → edits s (λ _, True) (set_space_after p v).
Proof. apply edits_modify_par. Qed.

Lemma edits_set_space_before s p v : par_on s p → edits s (λ _, True) (set_space_before p v).
Proof. apply edits_modify_par. Qed.

Lemma edits_set_column_width s t i w :
  table_on s t → edits s (λ _, True) (set_column_width t i w).
Proof. unfold set_column_width, table_on. edits. Qed.

Lemma edits_table_cell s t r c : table_on s t → edits s (cell_on s) (table_cell t r c).
Proof. unfold table_cell, table_on. edits. Qed.

Lemma edits_set_cell_text s c txt : cell_on s c → edits s (λ _, True) (set_cell_text c txt).
Proof. intros. by apply edits_set_frame_text. Qed.

Lemma edits_fill_solid s c : cell_on s c → edits s (λ _, True) (fill_solid c).
Proof. unfold fill_solid, cell_on. edits. Qed.

Lemma edits_set_fill_fore_color_rgb s c color :
  cell_on s c → edits s (λ _, True) (set_fill_fore_color_rgb c color).
Proof. unfold set_fill_fore_color_rgb, cell_on. edits. Qed.

Lemma edits_first_paragraph s obj : shape_on s obj → edits s (par_on s) (first_paragraph obj).
Proof.
  pose proof edits_text_frame. pose proof edits_paragraphs_getitem.
  unfold first_paragraph. edits.
Qed.

Lemma edits_cell_first_paragraph s c : cell_on s c → edits s (par_on s) (cell_first_paragraph c).
Proof. intros. by apply edits_paragraphs_getitem. Qed.

(** A slide section: pick a layout, add a slide, then work on that slide. *)
Lemma appends_slide_intro i (rest : SlideRef → D unit) :
  (∀ s, edits s (λ _, True) (rest s)) →
  appends_slide i (layout ← slide_layouts_getitem i; slide ← add_slide layout; rest slide).
Proof.
  intros Hrest doc doc' H.
  apply bind_inv in H as (layout & doc1 & H1 & H2).
  unfold slide_layouts_getitem, get_doc, mbind, D_bind in H1.
  destruct (slide_layouts doc !! i) as [l|] eqn:Hl; [|discriminate].
  unfold mret, D_ret in H1. simplify_eq.
  apply bind_inv in H2 as (s & doc2 & H2 & H3).
  unfold add_slide, get_doc, put_doc, mbind, D_bind, mret, D_ret in H2. simplify_eq.
  destruct (Hrest _ _ _ _ H3) as [(W & Hh & L & N & O & S) _].
  unfold SlideRef in *.
  cbn [slide_width slide_height slide_layouts slides] in *.
  rewrite length_app in N. cbn in N.
  rewrite lookup_app_r, Nat.sub_diag in S by done. cbn in S.
  destruct (slides doc' !! List.length (slides doc1)) as [sl|] eqn:Hsl;
    simplify_eq/=.
  exists (slide_layout sl), sl. split_and!; try done.
  apply list_eq. intros j.
  destruct (decide (j = List.length (slides doc1))) as [->|Hj].
  - rewrite Hsl. by rewrite lookup_app_r, Nat.sub_diag.
  - rewrite O by done.
    destruct (decide (j < List.length (slides doc1))%nat).
    + by rewrite !lookup_app_l.
    + rewrite !lookup_ge_None_2; [done | |]; rewrite length_app; cbn; lia.
Qed.

End Slide_frame_calls.

#[local] Hint Resolve edits_shapes_title edits_placeholders_getitem edits_add_textbox
  edits_add_table edits_table_of edits_text_frame edits_set_text edits_paragraphs_getitem
  edits_clear edits_add_paragraph edits_set_par_text edits_set_level edits_set_font_size
  edits_set_font_bold edits_set_font_color_rgb edits_set_space_after edits_set_space_before
  edits_set_column_width edits_table_cell edits_set_cell_text edits_fill_solid
  edits_set_fill_fore_color_rgb edits_first_paragraph edits_cell_first_paragraph : edits.

#[local] Hint Constants Opaque : edits.

Section Slide_frame_sections.
Import Pptx SlideFrame.

Ltac section_appends :=
  lazymatch goal with
  | |- appends_slide _ ?sec => unfold sec; apply appends_slide_intro; edits
  end.

Lemma sections_append_slides (v : Variant) :
  Forall2 appends_slide section_layouts (slide_sections v).
Proof.
  destruct v; unfold section_layouts, slide_sections, Final.slide_sections,
    Improved.slide_sections.
  all: repeat (constructor; [section_appends|]); constructor.
Qed.

End Slide_frame_sections.

Section Slide_frame_deck.
Import Pptx SlideFrame.

Lemma run_all_appends (idxs : list nat) (stmts : list (D unit)) :
  Forall2 appends_slide idxs stmts →
  ∀ doc doc', run_all stmts doc = Ok (tt, doc') →
    ∃ new,
      slides doc' = slides doc ++ new
      ∧ Forall2 (λ i sl, slide_layouts doc !! i = Some (slide_layout sl)) idxs new
      ∧ slide_layouts doc' = slide_layouts doc
      ∧ slide_width doc' = slide_width doc
      ∧ slide_height doc' = slide_height doc.
Proof.
  induction 1 as [|i stmt idxs stmts Hstmt _ IH]; intros doc doc' Hrun; simpl in Hrun.
  - unfold mret, D_ret in Hrun. simplify_eq. exists [].
    split_and!; try done. by rewrite app_nil_r.
  - apply bind_inv in Hrun as ([] & doc1 & H1 & H2).
    destruct (Hstmt _ _ H1) as (layout & sl & Hl & Hsl & Hs & HL & HW & HH).
    destruct (IH _ _ H2) as (new & Hs' & Hnew & HL' & HW' & HH').
    exists (sl :: new). split_and!; try congruence.
    + rewrite Hs', Hs. by rewrite <- app_assoc.
    + constructor; [congruence|].
      eapply Forall2_impl; [exact Hnew|]. intros j x. by rewrite HL.
Qed.

Lemma page_setup_effect (v : Variant) doc :
  page_setup v doc =
  Ok (tt, mkDocument (Inches 13.333) (Inches 7.5) (slide_layouts doc) (slides doc)).
Proof. by destruct v. Qed.

Lemma deck_appends (v : Variant) doc doc' :
  deck v doc = Ok (tt, doc') →
  ∃ new,
    slides doc' = slides doc ++ new
    ∧ Forall2 (λ i sl, slide_layouts doc !! i = Some (slide_layout sl)) section_layouts new
    ∧ slide_layouts doc' = slide_layouts doc
    ∧ slide_width doc' = Inches 13.333
    ∧ slide_height doc' = Inches 7.5.
Proof.
  intros Hdeck.
  assert (deck v = (page_setup v ;; run_all (slide_sections v))) as E
    by (destruct v; reflexivity).
  rewrite E in Hdeck. clear E.
  apply bind_inv in Hdeck as ([] & doc1 & H1 & H2).
  rewrite page_setup_effect in H1. simplify_eq.
  destruct (run_all_appends _ _ (sections_append_slides v) _ _ H2)
    as (new & Hs & Hnew & HL & HW & HH).
  by exists new.
Qed.

End Slide_frame_deck.

Section Places_facts.
Import Pptx Sim.

Lemma place_kept w j p : kept w !! j = Some p → place w j = p.
Proof. unfold place. by intros ->. Qed.

Lemma place_later w j :
  (List.length (kept w) ≤ j)%nat →
  place w j = (inherited w + (j - List.length (kept w)))%nat.
Proof. unfold place. intros H. by rewrite lookup_ge_None_2. Qed.

Lemma place_inj w j k : places_ok w → place w j = place w k → j = k.
Proof.
  intros [Hnd Hlt]. unfold place.
  destruct (kept w !! j) as [p|] eqn:Hj, (kept w !! k) as [q|] eqn:Hk.
  - intros ->. by eapply NoDup_lookup.
  - intros ->. eapply Forall_lookup_1 in Hj; [|exact Hlt]. cbn in Hj. lia.
  - intros <-. eapply Forall_lookup_1 in Hk; [|exact Hlt]. cbn in Hk. lia.
  - apply lookup_ge_None_1 in Hj, Hk. lia.
Qed.

Lemma find_placeholder_ext idx pos (xs ys : list Shape) :
  placeholder_idx <$> xs = placeholder_idx <$> ys →
  find_placeholder idx pos xs = find_placeholder idx pos ys.
Proof.
  revert pos ys. induction xs as [|x xs IH]; intros pos [|y ys] H; try done.
  cbn in H. injection H as Hxy H. cbn. rewrite Hxy.
  destruct (decide (placeholder_idx y = Some idx)); [done | by apply IH].
Qed.

Lemma find_placeholder_insert idx pos (xs : list Shape) i x y :
  xs !! i = Some x → placeholder_idx y = placeholder_idx x →
  find_placeholder idx pos (<[i := y]> xs) = find_placeholder idx pos xs.
Proof.
  intros Hi Hy. apply find_placeholder_ext.
  rewrite list_fmap_insert, Hy. apply list_insert_id. by rewrite list_lookup_fmap, Hi.
Qed.

Lemma find_placeholder_app idx pos (xs ys : list Shape) :
  find_placeholder idx pos (xs ++ ys) =
  match find_placeholder idx pos xs with
  | Some p => Some p
  | None => find_placeholder idx (pos + List.length xs) ys
  end.
Proof.
  revert pos. induction xs as [|x xs IH]; intros pos; cbn.
  - by rewrite Nat.add_0_r.
  - destruct (decide (placeholder_idx x = Some idx)); [done|].
    rewrite IH. by replace (S pos + List.length xs)%nat with (pos + S (List.length xs))%nat by lia.
Qed.

End Places_facts.

Section Sim_rules.
Import Pptx Sim.
Context (w : Places) (s s' : SlideRef).

Lemma sim_ret {A B : Type} (Q : A → B → Prop) a b :
  Q a b → sim w s s' Q (mret a : D A) (mret b : D B).
Proof. intros HQ doc doc' HR. by cbn. Qed.

Lemma sim_raise {A B : Type} (Q : A → B → Prop) e :
  sim w s s' Q (raise e : D A) (raise e : D B).
Proof. intros doc doc' HR. by cbn. Qed.

Lemma sim_bind {A A' B B' : Type} (P : A → A' → Prop) (Q : B → B' → Prop)
    (m : D A) (m' : D A') (k : A → D B) (k' : A' → D B') :
  sim w s s' P m m' → (∀ a a', P a a' → sim w s s' Q (k a) (k' a')) →
  sim w s s' Q (m ≫= k) (m' ≫= k').
Proof.
  intros Hm Hk doc doc' HR. specialize (Hm doc doc' HR).
  unfold mbind, D_bind.
  destruct (m doc) as [[a doc1]|e], (m' doc') as [[a' doc1']|e']; try done.
  destruct Hm as [HP HR1]. by apply Hk.
Qed.

Lemma sim_for {A : Type} (xs : list A) (body body' : A → D unit) :
  (∀ x, sim w s s' (λ _ _, True) (body x) (body' x)) →
  sim w s s' (λ _ _, True) (for_ xs body) (for_ xs body').
Proof.
  intros Hbody. induction xs as [|x xs IH]; simpl.
  - by apply sim_ret.
  - eapply sim_bind; [apply Hbody | intros _ _ _; exact IH].
Qed.

Lemma get_shape_eq sh doc :
  get_shape sh doc =
  match slides doc !! sh.1 with
  | Some sl =>
      match shapes sl !! sh.2 with
      | Some x => Ok (x, doc)
      | None => Raise IndexError
      end
  | None => Raise IndexError
  end.
Proof.
  unfold get_shape, get_slide, get_doc, mbind, D_bind.
  destruct (slides doc !! sh.1) as [sl|]; [|done]. cbn.
  by destruct (shapes sl !! sh.2).
Qed.

Lemma put_shape_eq sh y doc sl :
  slides doc !! sh.1 = Some sl →
  put_shape sh y doc =
  Ok (tt, mkDocument (slide_width doc) (slide_height doc) (slide_layouts doc)
            (<[sh.1 := mkSlide (slide_layout sl) (<[sh.2 := y]> (shapes sl))]> (slides doc))).
Proof.
  intros Hs. unfold put_shape, get_slide, put_slide, get_doc, put_doc, mbind, D_bind.
  by rewrite Hs.
Qed.

Lemma sim_get_shape sh sh' :
  shape_rel w s s' sh sh' → sim w s s' eq (get_shape sh) (get_shape sh').
Proof.
  intros (E1 & E2 & E3) doc doc' (sl & sl' & Hs & Hs' & Hsim).
  rewrite !get_shape_eq, E1, E2, Hs, Hs', E3.
  pose proof Hsim as (_ & _ & _ & Hb & _). rewrite Hb.
  destruct (shapes sl' !! sh'.2); [|done].
  split; [done|]. by exists sl, sl'.
Qed.

End Sim_rules.

Section Sim_primitives.
Import Pptx Sim.
Context (w : Places) (s s' : SlideRef).

Lemma slide_sim_bound sl sl' j x :
  slide_sim w sl sl' → shapes sl' !! j = Some x →
  (place w j < List.length (shapes sl))%nat.
Proof.
  intros (_ & _ & _ & Hb & _) Hj. apply lookup_lt_is_Some. rewrite Hb. eauto.
Qed.

Lemma slide_sim_end sl sl' :
  slide_sim w sl sl' → place w (List.length (shapes sl')) = List.length (shapes sl).
Proof. intros (_ & Hlen & Hm & _). rewrite place_later by done. lia. Qed.

(** Replacing a shape by one with the same placeholder number, on both
    sides, keeps the slides matching. *)
Lemma slide_sim_insert sl sl' j x y :
  slide_sim w sl sl' → shapes sl' !! j = Some x →
  placeholder_idx y = placeholder_idx x →
  slide_sim w (mkSlide (slide_layout sl) (<[place w j := y]> (shapes sl)))
              (mkSlide (slide_layout sl') (<[j := y]> (shapes sl'))).
Proof.
  intros Hsim Hj Hy. pose proof (slide_sim_bound _ _ _ _ Hsim Hj) as Hlt.
  destruct Hsim as (Hok & Hlen & Hm & Hb & Hc & He).
  assert (shapes sl !! place w j = Some x) as Hj' by (by rewrite Hb).
  unfold slide_sim. cbn [shapes]. rewrite !length_insert.
  split_and!; try done.
  - intros k. destruct (decide (k = j)) as [->|Hk].
    + rewrite !list_lookup_insert_eq; [done | by eapply lookup_lt_Some | done].
    + rewrite !list_lookup_insert_ne; [apply Hb | done |].
      intros Heq. apply Hk. symmetry. by eapply place_inj.
  - intros idx Hidx.
    rewrite (find_placeholder_insert _ _ _ _ x y Hj' Hy).
    rewrite (find_placeholder_insert _ _ _ _ x y Hj Hy). by apply Hc.
  - intros p Hp. destruct (He p Hp) as (z & Hz & Hph).
    destruct (decide (p = place w j)) as [->|Hne].
    + exists y. rewrite list_lookup_insert_eq by done. split; [done|].
      rewrite Hy. by simplify_eq.
    + exists z. by rewrite list_lookup_insert_ne.
Qed.

(** Appending the same shape on both sides keeps the slides matching. *)
Lemma slide_sim_app sl sl' x :
  slide_sim w sl sl' →
  slide_sim w (mkSlide (slide_layout sl) (shapes sl ++ [x]))
              (mkSlide (slide_layout sl') (shapes sl' ++ [x])).
Proof.
  intros Hsim. pose proof (slide_sim_end _ _ Hsim) as Hend.
  destruct Hsim as (Hok & Hlen & Hm & Hb & Hc & He).
  unfold slide_sim. cbn [shapes]. rewrite !length_app. cbn [List.length].
  split_and!; [done | lia | lia | | |].
  - intros j. destruct (decide (j < List.length (shapes sl'))%nat) as [Hj|Hj].
    + rewrite (lookup_app_l (shapes sl')) by done.
      rewrite lookup_app_l; [apply Hb|].
      apply lookup_lt_is_Some. rewrite Hb. by apply lookup_lt_is_Some.
    + destruct (decide (j = List.length (shapes sl'))) as [->|Hne].
      * rewrite Hend. by rewrite !lookup_app_r, !Nat.sub_diag.
      * rewrite !lookup_ge_None_2; [done | |].
        -- rewrite length_app. cbn. lia.
        -- rewrite length_app. cbn. rewrite place_later by lia. lia.
  - intros idx Hidx. rewrite !find_placeholder_app, (Hc idx Hidx).
    destruct (find_placeholder idx 0 (shapes sl')) as [p|]; [done|]. cbn.
    destruct (decide (placeholder_idx x = Some idx)); [|done].
    cbn. by rewrite Hend.
  - intros p Hp. destruct (He p Hp) as (z & Hz & Hph).
    exists z. split; [|done]. by apply lookup_app_l_Some.
Qed.

Lemma sim_update_shape sh sh' (f : Shape → Result Shape) :
  shape_rel w s s' sh sh' →
  (∀ x y, f x = Ok y → placeholder_idx y = placeholder_idx x) →
  sim w s s' (λ _ _, True) (update_shape sh f) (update_shape sh' f).
Proof.
  intros (E1 & E2 & E3) Hf doc doc' (sl & sl' & Hs & Hs' & Hsim).
  unfold update_shape, mbind, D_bind.
  rewrite !get_shape_eq, E1, E2, Hs, Hs', E3.
  pose proof Hsim as (_ & _ & _ & Hb & _). rewrite Hb.
  destruct (shapes sl' !! sh'.2) as [x|] eqn:Hx; [|done].
  destruct (f x) as [y|e] eqn:Hfx; [|done].
  rewrite (put_shape_eq sh y doc sl) by (by rewrite E1).
  rewrite (put_shape_eq sh' y doc' sl') by (by rewrite E2).
  split; [done|]. rewrite E1, E2, E3.
  eexists _, _. cbn [slides]. split_and!.
  - apply list_lookup_insert_eq. by eapply lookup_lt_Some.
  - apply list_lookup_insert_eq. by eapply lookup_lt_Some.
  - eapply slide_sim_insert; eauto.
Qed.

Lemma get_slide_eq r doc :
  get_slide r doc =
  match slides doc !! r with Some sl => Ok (sl, doc) | None => Raise IndexError end.
Proof. unfold get_slide, get_doc, mbind, D_bind. by destruct (slides doc !! r). Qed.

Lemma sim_append_shape x :
  sim w s s' (pyshape_rel w s s') (append_shape s x) (append_shape s' x).
Proof.
  intros doc doc' (sl & sl' & Hs & Hs' & Hsim).
  unfold append_shape, put_slide, get_doc, put_doc, mbind, D_bind.
  rewrite !get_slide_eq, Hs, Hs'. cbn.
  split.
  - split_and!; [done | done |]. cbn. symmetry. by apply slide_sim_end.
  - eexists _, _. split_and!.
    + apply list_lookup_insert_eq. by eapply lookup_lt_Some.
    + apply list_lookup_insert_eq. by eapply lookup_lt_Some.
    + by apply slide_sim_app.
Qed.

Lemma sim_shapes_title : sim w s s' (pyshape_rel w s s') (shapes_title s) (shapes_title s').
Proof.
  intros doc doc' (sl & sl' & Hs & Hs' & Hsim).
  unfold shapes_title, mbind, D_bind. rewrite !get_slide_eq, Hs, Hs'. cbn.
  split; [|by exists sl, sl'].
  destruct Hsim as (_ & _ & _ & _ & Hc & _). rewrite (Hc 0%nat) by lia.
  by destruct (find_placeholder 0 0 (shapes sl')).
Qed.

Lemma sim_placeholders_getitem idx :
  (idx ≤ 1)%nat →
  sim w s s' (pyshape_rel w s s') (placeholders_getitem s idx) (placeholders_getitem s' idx).
Proof.
  intros Hidx doc doc' (sl & sl' & Hs & Hs' & Hsim).
  unfold placeholders_getitem, mbind, D_bind. rewrite !get_slide_eq, Hs, Hs'. cbn.
  pose proof Hsim as (_ & _ & _ & _ & Hc & _). rewrite (Hc idx Hidx).
  destruct (find_placeholder idx 0 (shapes sl')); [|done]. cbn.
  split; [done | by exists sl, sl'].
Qed.

End Sim_primitives.

Create HintDb sim.
#[local] Hint Resolve sim_raise sim_get_shape sim_append_shape sim_shapes_title : sim.

Ltac sim_subst :=
  repeat match goal with
         | H : @eq _ ?a ?b |- _ => is_var a; is_var b; subst b
         end.

Ltac sim_step :=
  sim_subst;
  lazymatch goal with
  | |- Sim.sim _ _ _ _ (Pptx.for_ _ _) (Pptx.for_ _ _) => apply sim_for; intros ?
  | |- Sim.sim _ _ _ _ (mbind _ _) (mbind _ _) => eapply sim_bind; [| intros ? ? ?]
  | |- Sim.sim _ _ _ _ (match ?x with _ => _ end) (match ?x with _ => _ end) => destruct x
  | |- Sim.sim _ _ _ _ (let _ := _ in _) _ => cbv zeta
  | |- Sim.sim _ _ _ _ (mret _) (mret _) => apply sim_ret; solve [eauto with sim]
  | |- Sim.sim _ _ _ _ _ _ => solve [eauto with sim]
  end.

Ltac sim := intros; repeat sim_step.

Section Sim_refs.
Import Pptx Sim.
Context (w : Places) (s s' : SlideRef).

Lemma pyshape_rel_some sh sh' :
  shape_rel w s s' sh sh' → pyshape_rel w s s' (Some sh) (Some sh').
Proof. done. Qed.

Lemma frame_rel_shape sh sh' :
  shape_rel w s s' sh sh' → frame_rel w s s' (ShapeFrame sh) (ShapeFrame sh').
Proof. done. Qed.

Lemma frame_rel_cell c c' :
  cell_rel w s s' c c' → frame_rel w s s' (CellFrame c) (CellFrame c').
Proof. done. Qed.

Lemma cell_rel_intro t t' r c :
  shape_rel w s s' t t' → cell_rel w s s' (t, r, c) (t', r, c).
Proof. done. Qed.

Lemma par_rel_intro f f' i :
  frame_rel w s s' f f' → par_rel w s s' (f, i) (f', i).
Proof. done. Qed.

Lemma sim_deref obj obj' :
  pyshape_rel w s s' obj obj' → sim w s s' (shape_rel w s s') (deref obj) (deref obj').
Proof.
  by destruct obj as [sh|], obj' as [sh'|].
Qed.

End Sim_refs.

#[local] Hint Resolve pyshape_rel_some frame_rel_shape frame_rel_cell cell_rel_intro
  par_rel_intro sim_deref : sim.
#[local] Hint Extern 0 (@eq _ _ _) => reflexivity : sim.
#[local] Hint Extern 0 True => exact I : sim.

Section Sim_api.
Import Pptx Sim.
Context (w : Places) (s s' : SlideRef).

Lemma sim_get_table t t' :
  shape_rel w s s' t t' → sim w s s' eq (get_table t) (get_table t').
Proof. unfold get_table. sim. Qed.

Lemma put_table_update t tbl doc :
  put_table t tbl doc =
  update_shape t (λ x, match x with
                       | GraphicFrame geom _ => Ok (GraphicFrame geom tbl)
                       | _ => Raise AttributeError
                       end) doc.
Proof.
  unfold put_table, update_shape, mbind, D_bind.
  destruct (get_shape t doc) as [[x doc1]|e]; [|done]. by destruct x.
Qed.

Lemma sim_put_table t t' tbl :
  shape_rel w s s' t t' → sim w s s' (λ _ _, True) (put_table t tbl) (put_table t' tbl).
Proof.
  intros Ht doc doc' HR. rewrite !put_table_update.
  revert doc doc' HR. apply sim_update_shape; [done|].
  intros [] y H; by simplify_eq.
Qed.

Lemma put_frame_update sh tf doc :
  put_frame (ShapeFrame sh) tf doc =
  update_shape sh (λ x, match x with
                        | Placeholder idx ty _ => Ok (Placeholder idx ty tf)
                        | TextBox geom _ => Ok (TextBox geom tf)
                        | GraphicFrame _ _ => Raise AttributeError
                        end) doc.
Proof.
  unfold put_frame, update_shape, mbind, D_bind.
  destruct (get_shape sh doc) as [[x doc1]|e]; [|done]. by destruct x.
Qed.

#[local] Hint Resolve sim_get_table sim_put_table : sim.

Lemma sim_get_cell c c' :
  cell_rel w s s' c c' → sim w s s' eq (get_cell c) (get_cell c').
Proof.
  destruct c as [[t r] k], c' as [[t' r'] k']. intros (Ht & Hr & Hk).
  cbn in Ht, Hr, Hk. subst. unfold get_cell. cbn [fst snd]. sim.
Qed.

Lemma sim_put_cell c c' x :
  cell_rel w s s' c c' → sim w s s' (λ _ _, True) (put_cell c x) (put_cell c' x).
Proof.
  destruct c as [[t r] k], c' as [[t' r'] k']. intros (Ht & Hr & Hk).
  cbn in Ht, Hr, Hk. subst. unfold put_cell. cbn [fst snd]. sim.
Qed.

#[local] Hint Resolve sim_get_cell sim_put_cell : sim.

Lemma sim_get_frame f f' :
  frame_rel w s s' f f' → sim w s s' eq (get_frame f) (get_frame f').
Proof.
  destruct f as [sh|c], f' as [sh'|c']; try done; cbn [frame_rel]; intros H;
    unfold get_frame; sim.
Qed.

Lemma sim_put_frame f f' tf :
  frame_rel w s s' f f' → sim w s s' (λ _ _, True) (put_frame f tf) (put_frame f' tf).
Proof.
  destruct f as [sh|c], f' as [sh'|c']; try done; cbn [frame_rel]; intros H.
  - intros doc doc' HR. rewrite !put_frame_update.
    revert doc doc' HR. apply sim_update_shape; [done|].
    intros [] y Hy; by simplify_eq.
  - unfold put_frame. sim.
Qed.

#[local] Hint Resolve sim_get_frame sim_put_frame : sim.

Lemma sim_get_par p p' :
  par_rel w s s' p p' → sim w s s' eq (get_par p) (get_par p').
Proof.
  destruct p as [f i], p' as [f' i']. intros [Hf Hi]. cbn in Hf, Hi. subst.
  unfold get_par. cbn [fst snd]. sim.
Qed.

Lemma sim_modify_par p p' g :
  par_rel w s s' p p' → sim w s s' (λ _ _, True) (modify_par p g) (modify_par p' g).
Proof.
  destruct p as [f i], p' as [f' i']. intros [Hf Hi]. cbn in Hf, Hi. subst.
  unfold modify_par. cbn [fst snd]. sim.
Qed.

#[local] Hint Resolve sim_get_par sim_modify_par : sim.

Lemma sim_add_textbox l t wd h :
  sim w s s' (pyshape_rel w s s') (add_textbox s l t wd h) (add_textbox s' l t wd h).
Proof. apply sim_append_shape. Qed.

Lemma sim_add_table r c l t wd h :
  sim w s s' (pyshape_rel w s s') (add_table s r c l t wd h) (add_table s' r c l t wd h).
Proof. apply sim_append_shape. Qed.

Lemma sim_table_of obj obj' :
  pyshape_rel w s s' obj obj' → sim w s s' (shape_rel w s s') (table_of obj) (table_of obj').
Proof. unfold table_of. sim. Qed.

Lemma sim_text_frame obj obj' :
  pyshape_rel w s s' obj obj' → sim w s s' (frame_rel w s s') (text_frame obj) (text_frame obj').
Proof. unfold text_frame. sim. Qed.

Lemma sim_set_frame_text f f' txt :
  frame_rel w s s' f f' →
  sim w s s' (λ _ _, True) (set_frame_text f txt) (set_frame_text f' txt).
Proof. unfold set_frame_text. sim. Qed.

#[local] Hint Resolve sim_text_frame sim_set_frame_text : sim.

Lemma sim_set_text obj obj' txt :
  pyshape_rel w s s' obj obj' →
  sim w s s' (λ _ _, True) (set_text obj txt) (set_text obj' txt).
Proof. unfold set_text. sim. Qed.

Lemma sim_paragraphs_getitem f f' i :
  frame_rel w s s' f f' →
  sim w s s' (par_rel w s s') (paragraphs_getitem f i) (paragraphs_getitem f' i).
Proof. unfold paragraphs_getitem. sim. Qed.

#[local] Hint Resolve sim_paragraphs_getitem : sim.

Lemma sim_clear f f' :
  frame_rel w s s' f f' → sim w s s' (λ _ _, True) (clear f) (clear f').
Proof. unfold clear. sim. Qed.

Lemma sim_add_paragraph f f' :
  frame_rel w s s' f f' → sim w s s' (par_rel w s s') (add_paragraph f) (add_paragraph f').
Proof. unfold add_paragraph. sim. Qed.

Lemma sim_set_par_text p p' txt :
  par_rel w s s' p p' → sim w s s' (λ _ _, True) (set_par_text p txt) (set_par_text p' txt).
Proof. apply sim_modify_par. Qed.

Lemma sim_set_level p p' n :
  par_rel w s s' p p' → sim w s s' (λ _ _, True) (set_level p n) (set_level p' n).
Proof. unfold set_level. sim. Qed.

Lemma sim_set_font_size p p' v :
  par_rel w s s' p p' → sim w s s' (λ _ _, True) (set_font_size p v) (set_font_size p' v).
Proof. apply sim_modify_par. Qed.

Lemma sim_set_font_bold p p' b :
  par_rel w s s' p p' → sim w s s' (λ _ _, True) (set_font_bold p b) (set_font_bold p' b).
Proof. apply sim_modify_par. Qed.

Lemma sim_set_font_color_rgb p p' c :
  par_rel w s s' p p' →
  sim w s s' (λ _ _, True) (set_font_color_rgb p c) (set_font_color_rgb p' c).
Proof. apply sim_modify_par. Qed.

Lemma sim_set_space_after p p' v :
  par_rel w s s' p p' → sim w s s' (λ _ _, True) (set_space_after p v) (set_space_after p' v).
Proof. apply sim_modify_par. Qed.

Lemma sim_set_space_before p p' v :
  par_rel w s s' p p' →
  sim w s s' (λ _ _, True) (set_space_before p v) (set_space_before p' v).
Proof. apply sim_modify_par. Qed.

Lemma sim_set_column_width t t' i v :
  shape_rel w s s' t t' →
  sim w s s' (λ _ _, True) (set_column_width t i v) (set_column_width t' i v).
Proof. unfold set_column_width. sim. Qed.

Lemma sim_table_cell t t' r c :
  shape_rel w s s' t t' → sim w s s' (cell_rel w s s') (table_cell t r c) (table_cell t' r c).
Proof. unfold table_cell. sim. Qed.

Lemma sim_set_cell_text c c' txt :
  cell_rel w s s' c c' → sim w s s' (λ _ _, True) (set_cell_text c txt) (set_cell_text c' txt).
Proof. intros. apply sim_set_frame_text. by apply frame_rel_cell. Qed.

Lemma sim_fill_solid c c' :
  cell_rel w s s' c c' → sim w s s' (λ _ _, True) (fill_solid c) (fill_solid c').
Proof. unfold fill_solid. sim. Qed.

Lemma sim_set_fill_fore_color_rgb c c' color :
  cell_rel w s s' c c' →
  sim w s s' (λ _ _, True) (set_fill_fore_color_rgb c color) (set_fill_fore_color_rgb c' color).
Proof. unfold set_fill_fore_color_rgb. sim. Qed.

Lemma sim_first_paragraph obj obj' :
  pyshape_rel w s s' obj obj' →
  sim w s s' (par_rel w s s') (first_paragraph obj) (first_paragraph obj').
Proof. unfold first_paragraph. sim. Qed.

Lemma sim_cell_first_paragraph c c' :
  cell_rel w s s' c c' →
  sim w s s' (par_rel w s s') (cell_first_paragraph c) (cell_first_paragraph c').
Proof. intros. apply sim_paragraphs_getitem. by apply frame_rel_cell. Qed.

End Sim_api.

#[local] Hint Resolve sim_get_table sim_put_table sim_get_cell sim_put_cell sim_get_frame
  sim_put_frame sim_get_par sim_modify_par sim_add_textbox sim_add_table sim_table_of
  sim_text_frame sim_set_frame_text sim_set_text sim_paragraphs_getitem sim_clear
  sim_add_paragraph sim_set_par_text sim_set_level sim_set_font_size sim_set_font_bold
  sim_set_font_color_rgb sim_set_space_after sim_set_space_before sim_set_column_width
  sim_table_cell sim_set_cell_text sim_fill_solid sim_set_fill_fore_color_rgb
  sim_first_paragraph sim_cell_first_paragraph sim_placeholders_getitem : sim.
#[local] Hint Extern 0 (_ ≤ _)%nat => lia : sim.
#[local] Hint Constants Opaque : sim.

Section Sim_fresh.
Import Pptx Sim.

Lemma first_ph_spec idx pos phs p ty :
  first_ph idx pos phs = Some (p, ty) →
  (pos ≤ p)%nat ∧ phs !! (p - pos)%nat = Some (idx, ty).
Proof.
  revert pos. induction phs as [|[i t] phs IH]; intros pos; cbn; [done|].
  destruct (decide (i = idx)) as [->|Hne].
  - intros H. simplify_eq. split; [lia|]. by rewrite Nat.sub_diag.
  - intros H. apply IH in H as [Hle Hp]. split; [lia|].
    by replace (p - pos)%nat with (S (p - S pos)) by lia.
Qed.

Lemma find_placeholder_fresh idx pos phs :
  find_placeholder idx pos ((λ ph, Placeholder ph.1 ph.2 new_text_frame) <$> phs)
  = fst <$> first_ph idx pos phs.
Proof.
  revert pos. induction phs as [|[i t] phs IH]; intros pos; cbn; [done|].
  destruct (decide (i = idx)) as [->|Hne].
  - by rewrite decide_True.
  - rewrite decide_False by congruence. apply IH.
Qed.

Lemma fresh_slide_sim layout :
  slide_sim (layout_places layout) (fresh_slide layout) (fresh_slide (essential layout)).
Proof.
  unfold slide_sim, layout_places, fresh_slide, essential, places_ok, place.
  cbn [kept inherited shapes layout_placeholders].
  set (phs := layout_placeholders layout).
  pose proof (first_ph_spec 0 0 phs) as H0. pose proof (first_ph_spec 1 0 phs) as H1.
  pose proof (find_placeholder_fresh 0 0 phs) as F0.
  pose proof (find_placeholder_fresh 1 0 phs) as F1.
  assert (∀ idx, (idx ≤ 1)%nat → idx = 0%nat ∨ idx = 1%nat) as Hidx by lia.
  assert (∀ p, (p < List.length phs)%nat →
            ∃ x, ((λ ph, Placeholder ph.1 ph.2 new_text_frame) <$> phs) !! p = Some x
                 ∧ placeholder_idx x ≠ None) as Hfresh.
  { intros p Hp. destruct (lookup_lt_is_Some_2 phs p Hp) as [ph Hph].
    eexists. rewrite list_lookup_fmap, Hph. by split. }
  destruct (first_ph 0 0 phs) as [[p0 t0]|], (first_ph 1 0 phs) as [[p1 t1]|];
    simpl in *; rewrite ?length_fmap.
  - destruct (H0 _ _ eq_refl) as [_ E0], (H1 _ _ eq_refl) as [_ E1].
    rewrite Nat.sub_0_r in E0, E1.
    assert (p0 ≠ p1) by (intros ->; congruence).
    split_and!.
    + apply NoDup_ListNoDup; repeat constructor; cbn; intuition congruence.
    + repeat constructor; by eapply lookup_lt_Some.
    + lia.
    + lia.
    + intros [|[|j]]; simpl.
      * by rewrite list_lookup_fmap, E0.
      * by rewrite list_lookup_fmap, E1.
      * rewrite ?lookup_nil. apply lookup_ge_None_2. rewrite length_fmap. lia.
    + intros idx [->| ->]%Hidx; [by rewrite F0 | by rewrite F1].
    + exact Hfresh.
  - destruct (H0 _ _ eq_refl) as [_ E0]. rewrite Nat.sub_0_r in E0.
    split_and!.
    + apply NoDup_ListNoDup; repeat constructor; cbn; intuition congruence.
    + repeat constructor; by eapply lookup_lt_Some.
    + lia.
    + lia.
    + intros [|j]; simpl.
      * by rewrite list_lookup_fmap, E0.
      * rewrite ?lookup_nil. apply lookup_ge_None_2. rewrite length_fmap. lia.
    + intros idx [->| ->]%Hidx; [by rewrite F0 | by rewrite F1].
    + exact Hfresh.
  - destruct (H1 _ _ eq_refl) as [_ E1]. rewrite Nat.sub_0_r in E1.
    split_and!.
    + apply NoDup_ListNoDup; repeat constructor; cbn; intuition congruence.
    + repeat constructor; by eapply lookup_lt_Some.
    + lia.
    + lia.
    + intros [|j]; simpl.
      * by rewrite list_lookup_fmap, E1.
      * rewrite ?lookup_nil. apply lookup_ge_None_2. rewrite length_fmap. lia.
    + intros idx [->| ->]%Hidx; [by rewrite F0 | by rewrite F1].
    + exact Hfresh.
  - split_and!.
    + constructor.
    + constructor.
    + lia.
    + lia.
    + intros j; simpl. rewrite ?lookup_nil. apply lookup_ge_None_2. rewrite length_fmap. lia.
    + intros idx [->| ->]%Hidx; [by rewrite F0 | by rewrite F1].
    + exact Hfresh.
Qed.

End Sim_fresh.

Section Sim_sections.
Import Pptx Sim SlideFrame.

Lemma slide_sim_title w sl sl' :
  slide_sim w sl sl' → Deck.slide_title sl = Deck.slide_title sl'.
Proof.
  intros (_ & _ & _ & Hb & Hc & _). unfold Deck.slide_title.
  rewrite (Hc 0%nat) by lia.
  destruct (find_placeholder 0 0 (shapes sl')) as [p|]; [|done]. cbn. by rewrite Hb.
Qed.

Lemma add_slide_eq layout doc :
  add_slide layout doc =
  Ok (List.length (slides doc),
      mkDocument (slide_width doc) (slide_height doc) (slide_layouts doc)
        (slides doc ++ [fresh_slide layout])).
Proof. done. Qed.

Lemma slide_layouts_getitem_eq i doc :
  slide_layouts_getitem i doc =
  match slide_layouts doc !! i with
  | Some layout => Ok (layout, doc)
  | None => Raise IndexError
  end.
Proof.
  unfold slide_layouts_getitem, get_doc, mbind, D_bind. by destruct (slide_layouts doc !! i).
Qed.

Lemma section_ok_intro i (rest : SlideRef → D unit) :
  (i ≤ 1)%nat →
  (∀ s, edits s (λ _, True) (rest s)) →
  (∀ w s s', sim w s s' (λ _ _, True) (rest s) (rest s')) →
  section_ok i (layout ← slide_layouts_getitem i; slide ← add_slide layout; rest slide).
Proof.
  intros Hi Hedits Hsim. split_and!; [done | by apply appends_slide_intro |].
  intros doc doc' Hl. unfold mbind, D_bind.
  rewrite !slide_layouts_getitem_eq, Hl.
  destruct (slide_layouts doc !! i) as [layout|]; [|done]. cbn [fmap option_fmap option_map].
  rewrite !add_slide_eq.
  set (doc1 := mkDocument _ _ _ (slides doc ++ _)).
  set (doc1' := mkDocument _ _ _ (slides doc' ++ _)).
  assert (doc_sim (layout_places layout) (List.length (slides doc))
            (List.length (slides doc')) doc1 doc1') as HR.
  { exists (fresh_slide layout), (fresh_slide (essential layout)).
    subst doc1 doc1'. cbn [slides].
    split_and!; [by rewrite lookup_app_r, Nat.sub_diag ..| apply fresh_slide_sim]. }
  specialize (Hsim _ _ _ _ _ HR).
  destruct (rest _ doc1) as [[[] d]|e] eqn:E, (rest _ doc1') as [[[] d']|e'] eqn:E'; try done.
  destruct Hsim as [_ (sl & sl' & Hs & Hs' & Hss)].
  destruct (Hedits _ _ _ _ E) as [(_ & _ & _ & N & _) _].
  destruct (Hedits _ _ _ _ E') as [(_ & _ & _ & N' & _) _].
  subst doc1 doc1'. cbn [slides] in N, N'. rewrite length_app in N, N'. cbn in N, N'.
  exists (layout_places layout), sl, sl'. rewrite !last_lookup, N, N'.
  replace (Init.Nat.pred (List.length (slides doc) + 1)) with (List.length (slides doc)) by lia.
  replace (Init.Nat.pred (List.length (slides doc') + 1)) with (List.length (slides doc')) by lia.
  done.
Qed.

End Sim_sections.

Section Sim_deck.
Import Pptx Sim SlideFrame.

Ltac section_is_ok :=
  lazymatch goal with
  | |- section_ok _ ?sec =>
      unfold sec; apply section_ok_intro; [lia | edits | sim]
  end.

Lemma sections_ok (v : Variant) : Forall2 section_ok section_layouts (slide_sections v).
Proof.
  destruct v; unfold section_layouts, slide_sections, Final.slide_sections,
    Improved.slide_sections.
  all: repeat (constructor; [section_is_ok|]); constructor.
Qed.

Lemma run_all_sim (idxs : list nat) (stmts : list (D unit)) :
  Forall2 section_ok idxs stmts →
  ∀ doc doc', layouts_agree doc doc' →
    match run_all stmts doc, run_all stmts doc' with
    | Ok (_, d), Ok (_, d') =>
        ∃ new new',
          slides d = slides doc ++ new ∧ slides d' = slides doc' ++ new'
          ∧ Forall2 (λ sl sl', ∃ w, slide_sim w sl sl') new new'
    | Raise e, Raise e' => e = e'
    | _, _ => False
    end.
Proof.
  induction 1 as [|i stmt idxs stmts (Hi & Happ & Hsim) _ IH]; intros doc doc' Hagree.
  - cbn. exists [], []. by rewrite !app_nil_r.
  - cbn [run_all]. unfold mbind, D_bind.
    specialize (Hsim doc doc' (Hagree i Hi)).
    destruct (stmt doc) as [[[] d1]|e] eqn:E, (stmt doc') as [[[] d1']|e'] eqn:E'; try done.
    destruct Hsim as (w & sl & sl' & Hlast & Hlast' & Hss).
    destruct (Happ _ _ E) as (l1 & x & _ & _ & Hs & HL & _).
    destruct (Happ _ _ E') as (l1' & x' & _ & _ & Hs' & HL' & _).
    rewrite Hs, last_snoc in Hlast. rewrite Hs', last_snoc in Hlast'. simplify_eq.
    assert (layouts_agree d1 d1') as Hagree1.
    { intros j Hj. rewrite HL, HL'. by apply Hagree. }
    specialize (IH d1 d1' Hagree1).
    destruct (run_all stmts d1) as [[[] d]|e], (run_all stmts d1') as [[[] d']|e']; try done.
    destruct IH as (new & new' & Hn & Hn' & Hall).
    exists (sl :: new), (sl' :: new'). split_and!.
    + rewrite Hn, Hs. by rewrite <- app_assoc.
    + rewrite Hn', Hs'. by rewrite <- app_assoc.
    + constructor; [by exists w | done].
Qed.

Lemma essential_template_agrees doc : layouts_agree doc (essential_template doc).
Proof.
  intros i Hi. unfold essential_template. cbn [slide_layouts].
  rewrite list_lookup_fmap. f_equal. apply lookup_take_lt. lia.
Qed.

(** The deck on any template against the deck on its essentials. *)
Lemma deck_sim (v : Variant) doc :
  match deck v doc, deck v (essential_template doc) with
  | Ok (_, d), Ok (_, d') =>
      ∃ new, slides d = slides doc ++ new
             ∧ Forall2 (λ sl sl', ∃ w, slide_sim w sl sl') new (slides d')
  | Raise e, Raise e' => e = e'
  | _, _ => False
  end.
Proof.
  assert (deck v = (page_setup v ;; run_all (slide_sections v))) as ->
    by (destruct v; reflexivity).
  unfold mbind, D_bind. rewrite !page_setup_effect.
  set (doc1 := mkDocument _ _ (slide_layouts doc) _).
  set (doc1' := mkDocument _ _ (slide_layouts (essential_template doc)) _).
  assert (layouts_agree doc1 doc1') as Hagree by apply essential_template_agrees.
  pose proof (run_all_sim _ _ (sections_ok v) doc1 doc1' Hagree) as H.
  destruct (run_all (slide_sections v) doc1) as [[[] d]|e],
           (run_all (slide_sections v) doc1') as [[[] d']|e']; try done.
  destruct H as (new & new' & Hn & Hn' & Hall).
  exists new. split; [done|]. by rewrite Hn'.
Qed.

End Sim_deck.

Section Template_outcome.
Import Pptx Sim SlideFrame.

Lemma raised_deck_essential (v : Variant) doc :
  raised (deck v doc) = raised (deck v (essential_template doc)).
Proof.
  pose proof (deck_sim v doc) as H.
  destruct (deck v doc) as [[[] d]|e], (deck v (essential_template doc)) as [[[] d']|e'];
    try done. cbn. by f_equal.
Qed.

Lemma first_ph_None idx pos phs : first_ph idx pos phs = None ↔ idx ∉ phs.*1.
Proof.
  revert pos. induction phs as [|[i t] phs IH]; intros pos; cbn.
  - split; [intros _; apply not_elem_of_nil | done].
  - rewrite not_elem_of_cons. destruct (decide (i = idx)) as [->|Hne].
    + split; [done | by intros [? _]].
    + rewrite IH. split; [by intros ? | by intros [_ ?]].
Qed.

Lemma layout_defect_first_ph layout :
  layout_defect layout =
  match first_ph 0 0 (layout_placeholders layout) with
  | None => Some AttributeError
  | Some _ =>
      match first_ph 1 0 (layout_placeholders layout) with
      | None => Some KeyError
      | Some _ => None
      end
  end.
Proof.
  unfold layout_defect.
  pose proof (first_ph_None 0 0 (layout_placeholders layout)) as H0.
  pose proof (first_ph_None 1 0 (layout_placeholders layout)) as H1.
  destruct (first_ph 0 0 _) as [r0|].
  - rewrite decide_True; [|destruct (decide (0%nat ∈ (layout_placeholders layout).*1));
      [done | by apply H0 in n]].
    destruct (first_ph 1 0 _) as [r1|].
    + rewrite decide_True; [done|].
      destruct (decide (1%nat ∈ (layout_placeholders layout).*1)); [done | by apply H1 in n].
    + rewrite decide_False; [done | by apply H1].
  - rewrite decide_False; [done | by apply H0].
Qed.

Ltac split_layout layout :=
  let name := fresh "name" in
  let phs := fresh "phs" in
  destruct layout as [name phs]; cbn [layout_placeholders layout_name];
  destruct (first_ph 0 0 phs) as [[? ?]|], (first_ph 1 0 phs) as [[? ?]|].

Lemma raised_deck (v : Variant) doc : raised (deck v doc) = template_defect doc.
Proof.
  rewrite raised_deck_essential.
  unfold template_defect, essential_template.
  destruct doc as [wd ht layouts sls]. cbn [slide_width slide_height slide_layouts].
  destruct layouts as [|title_layout [|content_layout layouts]];
    cbn [take fmap list_fmap lookup list_lookup];
    rewrite ?layout_defect_first_ph; unfold essential.
  - destruct v; vm_compute; reflexivity.
  - split_layout title_layout; destruct v; vm_compute; reflexivity.
  - split_layout title_layout; split_layout content_layout;
      destruct v; vm_compute; reflexivity.
Qed.

End Template_outcome.

Section Any_template.
Import Pptx Sim SlideFrame Content.

Lemma filter_none {A : Type} (P : A → Prop) `{∀ x, Decision (P x)} (l : list A) :
  Forall (λ x, ¬ P x) l → filter P l = [].
Proof.
  induction 1 as [|x l Hx _ IH]; [done|]. by rewrite filter_cons_False.
Qed.

Lemma slide_sim_added w sl sl' : slide_sim w sl sl' → added_shapes sl = added_shapes sl'.
Proof.
  intros ((Hnd & Hlt) & Hlen & Hm & Hb & _ & He). unfold added_shapes.
  rewrite <- (take_drop (inherited w) (shapes sl)).
  rewrite <- (take_drop (List.length (kept w)) (shapes sl')).
  rewrite !filter_app.
  rewrite (filter_none _ (take _ (shapes sl))).
  2: { apply Forall_lookup_2. intros p x Hp.
       apply lookup_take_Some in Hp as [Hp Hin].
       destruct (He p Hin) as (y & Hy & Hph). by simplify_eq. }
  rewrite (filter_none _ (take _ (shapes sl'))).
  2: { apply Forall_lookup_2. intros j x Hj.
       apply lookup_take_Some in Hj as [Hj Hin].
       destruct (lookup_lt_is_Some_2 (kept w) j Hin) as [p Hp].
       rewrite <- Hb, (place_kept _ _ _ Hp) in Hj.
       eapply Forall_lookup_1 in Hp; [|exact Hlt]. cbn in Hp.
       destruct (He p Hp) as (y & Hy & Hph). by simplify_eq. }
  cbn [app]. f_equal. apply list_eq. intros k.
  rewrite !lookup_drop, <- Hb. f_equal.
  rewrite place_later by lia. lia.
Qed.

Lemma slide_sim_frame w sl sl' idx :
  (idx ≤ 1)%nat → slide_sim w sl sl' → placeholder_frame idx sl = placeholder_frame idx sl'.
Proof.
  intros Hidx (_ & _ & _ & Hb & Hc & _). unfold placeholder_frame.
  rewrite (Hc idx Hidx).
  destruct (find_placeholder idx 0 (shapes sl')) as [p|]; [|done]. cbn. by rewrite Hb.
Qed.

Lemma slide_sim_written w sl sl' : slide_sim w sl sl' → written sl = written sl'.
Proof.
  intros Hsim. unfold written.
  rewrite (slide_sim_frame w sl sl' 0), (slide_sim_frame w sl sl' 1) by (done || lia).
  by rewrite (slide_sim_added w sl sl').
Qed.

Lemma written_of_sim (new new' : list Slide) :
  Forall2 (λ sl sl', ∃ w, slide_sim w sl sl') new new' →
  written <$> new = written <$> new'.
Proof.
  induction 1 as [|sl sl' new new' [w Hw] _ IH]; [done|].
  cbn. f_equal; [by eapply slide_sim_written | done].
Qed.

Lemma essential_written (v : Variant) doc d' :
  template_defect doc = None →
  deck v (essential_template doc) = Ok (tt, d') →
  written <$> slides d' = written <$> slides (built v).
Proof.
  unfold template_defect, essential_template.
  destruct doc as [wd ht layouts sls]. cbn [slide_width slide_height slide_layouts].
  destruct layouts as [|[name0 phs0] [|[name1 phs1] layouts]];
    cbn [take fmap list_fmap lookup list_lookup];
    rewrite ?layout_defect_first_ph; unfold essential;
    cbn [layout_placeholders layout_name]; try done.
  - by destruct (first_ph 0 0 phs0) as [[? ?]|], (first_ph 1 0 phs0) as [[? ?]|].
  - destruct (first_ph 0 0 phs0) as [[p0 t0]|], (first_ph 1 0 phs0) as [[p1 t1]|]; try done.
    destruct (first_ph 0 0 phs1) as [[q0 u0]|], (first_ph 1 0 phs1) as [[q1 u1]|]; try done.
    intros _. cbn.
    set (canon := mkDocument _ _ _ _).
    assert (∃ d0, deck v canon = Ok (tt, d0)
                  ∧ written <$> slides d0 = written <$> slides (built v)) as (d0 & E0 & T0)
      by (destruct v; eexists; split; vm_compute; reflexivity).
    rewrite E0. intros H. by simplify_eq.
Qed.

(** The slides a deck adds to any document carry what the deck built from
    the bundled template carries. *)
Lemma deck_content (v : Variant) doc d :
  deck v doc = Ok (tt, d) →
  ∃ new, slides d = slides doc ++ new
         ∧ written <$> new = written <$> slides (built v).
Proof.
  intros E.
  pose proof (raised_deck v doc) as Hdefect. rewrite E in Hdefect. cbn in Hdefect.
  pose proof (deck_sim v doc) as Hsim. rewrite E in Hsim.
  destruct (deck v (essential_template doc)) as [[[] d']|e'] eqn:E'; [|done].
  destruct Hsim as (new & Hnew & Hall).
  exists new. split; [done|].
  rewrite (written_of_sim _ _ Hall). by apply (essential_written v doc d').
Qed.

Lemma deck_on_usable_template (v : Variant) doc :
  template_defect doc = None → ∃ d, deck v doc = Ok (tt, d).
Proof.
  intros Hdefect. pose proof (raised_deck v doc) as Hraised. rewrite Hdefect in Hraised.
  destruct (deck v doc) as [[[] d]|e]; [by exists d | discriminate Hraised].
Qed.

Lemma slide_title_written sl :
  Deck.slide_title sl = frame_text <$> (written sl).1.1.
Proof.
  unfold Deck.slide_title, written, placeholder_frame. cbn [fst].
  destruct (find_placeholder 0 0 (shapes sl)) as [p|]; [|done]. cbn.
  by destruct (shapes sl !! p).
Qed.

Lemma slide_tables_written sl : Deck.slide_tables sl = tables_among (written sl).2.
Proof.
  unfold Deck.slide_tables, tables_among, written, added_shapes. cbn [snd].
  induction (shapes sl) as [|x xs IH]; [done|].
  destruct x; cbn; rewrite ?filter_cons_True, ?filter_cons_False by (cbn; congruence);
    cbn; by rewrite ?IH.
Qed.

Lemma fmap_via_written {B : Type} (f : Slide → B)
    (g : option TextFrame * option TextFrame * list Shape → B) (l k : list Slide) :
  (∀ sl, f sl = g (written sl)) → written <$> l = written <$> k → f <$> l = f <$> k.
Proof.
  intros Hfg H.
  rewrite (list_fmap_ext f (g ∘ written) l) by (intros; apply Hfg).
  rewrite (list_fmap_ext f (g ∘ written) k) by (intros; apply Hfg).
  by rewrite !list_fmap_compose, H.
Qed.

Lemma built_titles (v : Variant) :
  Deck.slide_title <$> slides (built v) = Some <$> script_titles v.
Proof. destruct v; vm_compute; reflexivity. Qed.

Lemma built_well_placed (v : Variant) :
  Forall (λ c, Geometry.well_placed (Inches 13.333) (Inches 7.5) c.2)
    (written <$> slides (built v)).
Proof.
  refine (@bool_decide_unpack _ (Forall_dec _ _) _).
  destruct v; vm_compute; exact I.
Qed.

Lemma built_slide_5 (v : Variant) :
  ∃ tbl,
    (Deck.slide_tables <$> slides (built v)) !! 4%nat = Some [tbl]
    ∧ Deck.row_count tbl = match v with final => 5%nat | improved => 6%nat end
    ∧ Deck.column_count tbl = match v with final => 3%nat | improved => 4%nat end
    ∧ Deck.header_texts tbl =
        match v with
        | final => ["Communication Tool"; "Current State"; "Phase 1 Improvement"]
        | improved => ["Component"; "Impact"; "Effort"; "Timeline"]
        end.
Proof. destruct v; eexists; split_and!; vm_compute; reflexivity. Qed.

End Any_template.

(** * Beyond the bundled template *)

(** X1. Run on any document, each slide section that returns has appended
    exactly one slide, made from the layout it asks for (layout 0 for
    sections 1 and 12, layout 1 for the others), and has left the earlier
    slides, the layouts and the page size as they were. *)
Theorem section_appends_one_slide (v : Variant) :
  Forall2 SlideFrame.appends_slide section_layouts (slide_sections v).
Proof. apply sections_append_slides. Qed.

(** X2. Whatever document a script starts from, if it builds its deck the
    slides already there stay first and unchanged, exactly twelve slides
    follow, each on the layout its section asks for, the layouts are
    untouched and the page is 13.333 by 7.5 inches. *)
Theorem deck_keeps_existing_slides (v : Variant) (doc doc' : Pptx.Document) :
  deck v doc = Ok (tt, doc') →
  ∃ new,
    Pptx.slides doc' = Pptx.slides doc ++ new
    ∧ List.length new = 12%nat
    ∧ Forall2 (λ i sl, Pptx.slide_layouts doc !! i = Some (Pptx.slide_layout sl))
        section_layouts new
    ∧ Pptx.slide_layouts doc' = Pptx.slide_layouts doc
    ∧ Pptx.slide_width doc' = Pptx.Inches 13.333
    ∧ Pptx.slide_height doc' = Pptx.Inches 7.5.
Proof.
  intros Hdeck. destruct (deck_appends v doc doc' Hdeck) as (new & Hs & Hl & HL & HW & HH).
  exists new. split_and!; try done.
  apply Forall2_length in Hl. by rewrite <- Hl.
Qed.

Lemma deck_keeps_existing_slides_witness :
  ∃ doc', deck improved crowded_template = Ok (tt, doc')
          ∧ take 1 (Pptx.slides doc') = Pptx.slides crowded_template
          ∧ List.length (Pptx.slides doc') = 13%nat.
Proof.
  destruct (deck improved crowded_template) as [[[] doc']|e] eqn:E.
  - exists doc'. split; [reflexivity|].
    destruct (deck_keeps_existing_slides improved crowded_template doc' E)
      as (new & Hs & Hn & _).
    rewrite Hs. split; [reflexivity|]. rewrite length_app, Hn. reflexivity.
  - exfalso. vm_compute in E. discriminate E.
Defined.

(** X3. On any document, a script's deck raises exactly what the template
    lacks: [IndexError] without layout 0 (or, that one being usable, without
    layout 1), [AttributeError] when the layout has no placeholder 0,
    [KeyError] when it has placeholder 0 but no placeholder 1; it builds
    the deck when nothing is lacking.  Page size, further layouts, further
    placeholders and slides already present make no difference. *)
Theorem deck_raises_what_template_lacks (v : Variant) (doc : Pptx.Document) :
  raised (deck v doc) = template_defect doc.
Proof. apply raised_deck. Qed.

(** X4. On every template whose layouts 0 and 1 both offer placeholders 0
    and 1, wherever they sit among other placeholders, the deck is built:
    the new slides follow the existing ones, and each carries the same
    title frame, body frame, text boxes and tables as the corresponding
    slide built from the bundled template, so the script's twelve titles in
    order. *)
Theorem deck_succeeds_on_usable_template (v : Variant) (doc : Pptx.Document) :
  template_defect doc = None →
  ∃ d new,
    deck v doc = Ok (tt, d)
    ∧ Pptx.slides d = Pptx.slides doc ++ new
    ∧ Content.written <$> new = Content.written <$> Pptx.slides (built v)
    ∧ Deck.slide_title <$> new = Some <$> script_titles v.
Proof.
  intros Hdefect. destruct (deck_on_usable_template v doc Hdefect) as [d E].
  destruct (deck_content v doc d E) as (new & Hs & Hw).
  exists d, new. split_and!; try done.
  rewrite <- built_titles.
  by apply (fmap_via_written _ (λ c, Pptx.frame_text <$> c.1.1) _ _ slide_title_written).
Qed.

Lemma deck_succeeds_on_usable_template_witness :
  template_defect crowded_template = None
  ∧ ∃ d new, deck final crowded_template = Ok (tt, d)
             ∧ Pptx.slides d = Pptx.slides crowded_template ++ new
             ∧ Content.written <$> new = Content.written <$> Pptx.slides (built final)
             ∧ Deck.slide_title <$> new = Some <$> script_titles final.
Proof.
  split; [reflexivity|].
  apply (deck_succeeds_on_usable_template final crowded_template). reflexivity.
Defined.

(** X5. Whatever the installed library and the world, the first failure
    decides how a run ends: what the template lacks, else the system's
    error for the write, else the error standard output raises for a
    confirmation line; the run returns only when there is none. *)
Theorem first_failure_decides_the_result
    (v : Variant) (rt : Os.Runtime) (w : Os.World) :
  (create_presentation v rt w).1 =
    match template_defect (Os.bundled_template rt) with
    | Some e => Raise e
    | None =>
        match Os.os_error w (output_file v) with
        | Some e => Raise e
        | None =>
            match Os.refusal (Os.console w) (confirmations v) with
            | Some e => Raise e
            | None => Ok tt
            end
        end
    end.
Proof.
  rewrite create_presentation_outcome. unfold outcome, Os.os_error.
  pose proof (raised_deck v (Os.bundled_template rt)) as Hraised.
  destruct (deck v (Os.bundled_template rt)) as [[[] prs]|e]; cbn in Hraised;
    rewrite <- Hraised; [|done].
  by destruct (Os.disk w (output_file v)).
Qed.

(** X6. With a template that lacks something the run ends before anything
    is written or printed: the exception is the result and the world is
    exactly as it was, even where an earlier output file exists. *)
Theorem defective_template_leaves_world
    (v : Variant) (rt : Os.Runtime) (w : Os.World) (e : Exn) :
  template_defect (Os.bundled_template rt) = Some e →
  create_presentation v rt w = (Raise e, w).
Proof.
  intros Hdefect. rewrite create_presentation_outcome. unfold outcome.
  pose proof (raised_deck v (Os.bundled_template rt)) as Hraised.
  rewrite Hdefect in Hraised.
  destruct (deck v (Os.bundled_template rt)) as [[[] prs]|e']; cbn in Hraised; by simplify_eq.
Qed.

Lemma defective_template_leaves_world_witness :
  template_defect title_only_template = Some KeyError
  ∧ create_presentation final (Os.mkRuntime title_only_template toy_serializer) (stale final)
    = (Raise KeyError, stale final).
Proof.
  split; [reflexivity|].
  apply (defective_template_leaves_world final
           (Os.mkRuntime title_only_template toy_serializer) (stale final) KeyError).
  reflexivity.
Defined.



(** With a serializer that stamps the time the two orders are told apart:
    the final script's package is written first in one and second in the
    other. *)
Lemma time_stamps_tell_the_orders_apart :
  Os.files (create_presentation improved (Os.python_pptx toy_serializer)
              (create_presentation final (Os.python_pptx toy_serializer) empty_dir).2).2
    !! output_file final
  ≠ Os.files (create_presentation final (Os.python_pptx toy_serializer)
                (create_presentation improved (Os.python_pptx toy_serializer) empty_dir).2).2
      !! output_file final.
Proof.
  rewrite !create_presentation_outcome, !outcome_built. cbn [Os.disk empty_dir snd Os.files].
  unfold no_error. cbn [Os.disk snd Os.files].
  assert (output_file final ≠ output_file improved) as Hne by discriminate.
  rewrite lookup_insert_ne, !lookup_insert_eq by done.
  unfold toy_serializer. intros Heq. apply (inj Some), app_inv_head in Heq.
  vm_compute in Heq. discriminate Heq.
Qed.

(** A torn write costs the earlier output: on a full disk the run ends with
    the system's error, the output name holds what was written, here
    nothing, and no line is printed. *)
Lemma torn_write_replaces_earlier_output :
  Os.files (full_disk final) !! output_file final = Some [Byte.x00]
  ∧ (create_presentation final (Os.python_pptx toy_serializer) (full_disk final)).1
    = Raise (OSError 28)
  ∧ Os.files (create_presentation final (Os.python_pptx toy_serializer) (full_disk final)).2
      !! output_file final
    = Some []
  ∧ Os.stdout
      (Os.events (create_presentation final (Os.python_pptx toy_serializer) (full_disk final)).2)
    = [].
Proof.
  rewrite create_presentation_outcome, outcome_built.
  split_and!; [apply lookup_singleton_eq | reflexivity | apply lookup_insert_eq | reflexivity].
Qed.



(** X9. Whatever document a script builds its deck on, on every slide it
    adds the text boxes and tables lie inside the page, boxes placed on one
    slide sit side by side without overlap, and the column widths of each
    table add up to the width of its frame. *)
Theorem placed_shapes_fit_the_page (v : Variant) (doc d : Pptx.Document) :
  deck v doc = Ok (tt, d) →
  ∃ new,
    Pptx.slides d = Pptx.slides doc ++ new
    ∧ Forall (λ sl, Geometry.well_placed (Pptx.slide_width d) (Pptx.slide_height d)
                      (Content.added_shapes sl)) new.
Proof.
  intros E. destruct (deck_content v doc d E) as (new & Hs & Hw).
  destruct (deck_appends v doc d E) as (_ & _ & _ & _ & -> & ->).
  exists new. split; [done|].
  pose proof (built_well_placed v) as H. rewrite <- Hw in H.
  rewrite Forall_fmap in H. exact H.
Qed.

Lemma placed_shapes_fit_the_page_witness :
  ∃ d new,
    deck improved crowded_template = Ok (tt, d)
    ∧ Pptx.slides d = Pptx.slides crowded_template ++ new
    ∧ Forall (λ sl, Geometry.well_placed (Pptx.slide_width d) (Pptx.slide_height d)
                      (Content.added_shapes sl)) new.
Proof.
  destruct (deck improved crowded_template) as [[[] d]|e] eqn:E.
  - destruct (placed_shapes_fit_the_page improved crowded_template d E) as (new & Hs & Hw).
    exists d, new.
    split; [reflexivity|].
    split; [exact Hs | exact Hw].
  - exfalso. vm_compute in E. discriminate E.
Defined.

(** X10. Whatever document a script builds its deck on, the fifth slide it
    adds carries exactly one table: 5 rows by 3 columns under the headers
    'Communication Tool', 'Current State', 'Phase 1 Improvement' in the
    final script, 6 rows by 4 columns under 'Component', 'Impact',
    'Effort', 'Timeline' in the improved script. *)
Theorem slide_5_table_on_any_template (v : Variant) (doc d : Pptx.Document) :
  deck v doc = Ok (tt, d) →
  ∃ sl tbl,
    Pptx.slides d !! (List.length (Pptx.slides doc) + 4)%nat = Some sl
    ∧ Deck.slide_tables sl = [tbl]
    ∧ Deck.row_count tbl = match v with final => 5%nat | improved => 6%nat end
    ∧ Deck.column_count tbl = match v with final => 3%nat | improved => 4%nat end
    ∧ Deck.header_texts tbl =
        match v with
        | final => ["Communication Tool"; "Current State"; "Phase 1 Improvement"]
        | improved => ["Component"; "Impact"; "Effort"; "Timeline"]
        end.
Proof.
  intros E. destruct (deck_content v doc d E) as (new & Hs & Hw).
  destruct (built_slide_5 v) as (tbl & Htbl & Hrows & Hcols & Hhead).
  pose proof (fmap_via_written Deck.slide_tables (λ c, Content.tables_among c.2)
                new (Pptx.slides (built v)) slide_tables_written Hw) as Ht.
  rewrite <- Ht in Htbl.
  apply list_lookup_fmap_Some_1 in Htbl as (sl & Htables & Hsl).
  exists sl, tbl.
  split; [|split; [symmetry; exact Htables | split; [exact Hrows | split; [exact Hcols | exact Hhead]]]].
  rewrite Hs, lookup_app_r by lia.
  replace (List.length (Pptx.slides doc) + 4 - List.length (Pptx.slides doc))%nat with 4%nat by lia.
  exact Hsl.
Qed.

Lemma slide_5_table_on_any_template_witness :
  ∃ d sl tbl,
    deck final crowded_template = Ok (tt, d)
    ∧ Pptx.slides d !! 5%nat = Some sl
    ∧ Deck.slide_tables sl = [tbl]
    ∧ Deck.row_count tbl = 5%nat.
Proof.
  destruct (deck final crowded_template) as [[[] d]|e] eqn:E.
  - destruct (slide_5_table_on_any_template final crowded_template d E)
      as (sl & tbl & Hsl & Htbl & Hrows & _).
    exists d, sl, tbl. split; [reflexivity|].
    split; [exact Hsl | split; [exact Htbl | exact Hrows]].
  - exfalso. vm_compute in E. discriminate E.
Defined.
